(** * Pebble event payloads, their redaction-aware rendering, and the
      EventListener defaults (event.go)

    A shallow embedding of [github.com/cockroachdb/pebble/event.go].  Every
    [SafeFormat] method is translated as a function on the printer's buffer;
    the buffer keeps, for each fragment, whether it came from the format
    string, from a safe argument or from an unsafe one.  Numbers follow Go:
    [uint64] sums wrap, [float64] is IEEE 754 binary64 (the Standard Library's
    [SpecFloat] at precision 53), and [%d], [%s], [%.1f] print as [fmt] does. *)

From Stdlib Require Import ZArith List String Ascii Bool Lia DecimalString.
From Stdlib Require Import Floats.SpecFloat.
Import ListNotations.

Open Scope string_scope.
Open Scope Z_scope.

(** ** Go's numbers *)

Module Go.

(** [uint64] arithmetic wraps around. *)
Definition uint64_wrap (z : Z) : Z := z mod 2 ^ 64.

Definition float64 : Type := spec_float.

Definition prec : Z := 53.
Definition emax : Z := 1024.

(** [float64(n)] for an integer [n]: the nearest binary64, ties to even. *)
Definition float64_of_int (n : Z) : float64 := binary_normalize prec emax n 0 false.

Definition fadd : float64 -> float64 -> float64 := SFadd prec emax.
Definition fdiv : float64 -> float64 -> float64 := SFdiv prec emax.

Definition is_finite (f : float64) : bool :=
  match f with
  | S754_zero _ | S754_finite _ _ _ => true
  | S754_infinity _ | S754_nan => false
  end.

(** The integer part of a float, rounding toward zero; infinities and NaN
    have none. *)
Definition trunc (f : float64) : option Z :=
  match f with
  | S754_zero _ => Some 0
  | S754_finite s m e =>
      let a := Z.shiftl (Zpos m) e in
      Some (if s then - a else a)
  | S754_infinity _ | S754_nan => None
  end.

(** [uint64(f)].  When the integer part of [f] is a [uint64] the conversion
    yields it.  Otherwise "the conversion succeeds but the result value is
    implementation-dependent" (Go language specification, Conversions): the
    platform's choice is the parameter [oob]. *)
Definition uint64_of_float64 (oob : float64 -> Z) (f : float64) : Z :=
  match trunc f with
  | Some z => if (0 <=? z) && (z <? 2 ^ 64) then z else uint64_wrap (oob f)
  | None => uint64_wrap (oob f)
  end.

(** [time.Duration] is a count of nanoseconds; [Second] is 1e9 of them. *)
Definition Duration : Type := Z.
Definition Second : Duration := 1000000000.

(** [func (d Duration) Seconds() float64]:
    [sec := d / Second; nsec := d % Second;
     return float64(sec) + float64(nsec)/1e9].
    Go's integer division truncates toward zero. *)
Definition Seconds (d : Duration) : float64 :=
  let sec := Z.quot d Second in
  let nsec := Z.rem d Second in
  fadd (float64_of_int sec) (fdiv (float64_of_int nsec) (float64_of_int 1000000000)).

End Go.

(** ** The verbs of [fmt] that event.go uses *)

Module fmt.

(** [%d] of an integer. *)
Definition d (n : Z) : string := NilZero.string_of_int (Z.to_int n).

(** [n / m] rounded to the nearest integer, ties to even ([0 <= n], [0 < m]). *)
Definition div_nearest_even (n m : Z) : Z :=
  let q := n / m in
  let r := n mod m in
  match 2 * r ?= m with
  | Lt => q
  | Gt => q + 1
  | Eq => if Z.even q then q else q + 1
  end.

Definition sign (s : bool) : string := if s then "-" else "".

Fixpoint zeros (n : nat) : string :=
  match n with
  | O => ""
  | S k => "0" ++ zeros k
  end.

(** The last [p] decimal digits of [n], zero-padded on the left. *)
Definition frac_digits (p : nat) (n : Z) : string :=
  let s := d (n mod 10 ^ Z.of_nat p) in
  zeros (p - String.length s) ++ s.

(** [%.pf] of a float64: the exact binary value rounded to [p] decimals,
    ties to even, as strconv does; the sign is printed when the sign bit
    is set, and the non-finite values print as [+Inf], [-Inf], [NaN]. *)
Definition f (p : nat) (x : Go.float64) : string :=
  let point (t : Z) :=
    match p with
    | O => d t
    | S _ => d (t / 10 ^ Z.of_nat p) ++ "." ++ frac_digits p t
    end in
  match x with
  | S754_nan => "NaN"
  | S754_infinity s => if s then "-Inf" else "+Inf"
  | S754_zero s => sign s ++ point 0
  | S754_finite s m e =>
      let scaled := Zpos m * 10 ^ Z.of_nat p in
      let t := if 0 <=? e then scaled * 2 ^ e
               else div_nearest_even scaled (2 ^ (- e)) in
      sign s ++ point t
  end.

End fmt.

(** ** What event.go uses from the rest of the repository

    [base.FileNum]'s [String] method and [internal/humanize.Uint64] live in
    other packages; the result of converting an unrepresentable float to
    [uint64] is the platform's.  The development is parametric in all three. *)

Class Externals : Type := {
  FileNum_String : Z -> string;
  humanize_Uint64 : Z -> string;
  uint64_of_unrepresentable : Go.float64 -> Z
}.

(** Go's [error] interface: a value observed through its [Error] method.  A
    field of type [error] is an [option error], [None] for [nil]. *)
Record error : Type := mkError { Error : string }.

(** ** The redaction boundary (package redact) *)

Module redact.

Inductive mark : Type := safe | unsafe.

(** Modelled from the spec: the redact package is not part of event.go.
    A rendered line keeps its fragments apart: the text of the format
    string, and each formatted operand tagged safe or unsafe ("safe values
    are wrapped/tagged distinctly from potentially-sensitive values").
    [Bad c] stands for the [%!c(...)] diagnostic fmt prints for a verb whose
    operand is missing, surplus or of the wrong type. *)
Inductive piece : Type :=
| Lit (s : string)
| Arg (m : mark) (s : string)
| Bad (c : ascii).

Definition RedactableString : Type := list piece.
Definition SafePrinter : Type := list piece.

(** The operands event.go passes to [Printf], by Go type. *)
Inductive value : Type :=
| VInt (n : Z)
| VString (s : string)
| VSafeString (s : string)
| VFloat (x : Go.float64)
| VFileNum (n : Z)
| VError (e : option error).

(** [Safe v] is [redact.Safe(v)]; [Plain v] is [v] passed as it is. *)
Inductive arg : Type :=
| Safe (v : value)
| Plain (v : value).

(** An operand wrapped by [redact.Safe], or of type [redact.SafeString], is
    safe; every other operand is unsafe. *)
Definition mark_of (a : arg) : mark :=
  match a with
  | Safe _ => safe
  | Plain (VSafeString _) => safe
  | Plain _ => unsafe
  end.

Definition value_of (a : arg) : value :=
  match a with
  | Safe v => v
  | Plain v => v
  end.

(** The text of one operand under verb [c] with optional precision [p]. *)
Definition format_value `{Externals} (p : option nat) (c : ascii) (v : value)
  : option string :=
  if Ascii.eqb c "d" then
    match v with
    | VInt n => Some (fmt.d n)
    | _ => None
    end
  else if Ascii.eqb c "s" then
    match v with
    | VString s => Some s
    | VSafeString s => Some s
    | VFileNum n => Some (FileNum_String n)
    | VError (Some e) => Some (Error e)
    | _ => None
    end
  else if Ascii.eqb c "f" then
    match v with
    | VFloat x => Some (fmt.f (match p with Some n => n | None => 6%nat end) x)
    | _ => None
    end
  else None.

Definition operand `{Externals} (p : option nat) (c : ascii) (a : arg) : piece :=
  match format_value p c (value_of a) with
  | Some s => Arg (mark_of a) s
  | None => Bad c
  end.

Definition flush (lit : string) : list piece :=
  match lit with
  | EmptyString => []
  | _ => [Lit lit]
  end.

Definition digit (c : ascii) : option nat :=
  let n := nat_of_ascii c in
  if ((48 <=? n) && (n <=? 57))%nat then Some (n - 48)%nat else None.

(** Where the scanner stands in a directive: outside one, after [%], after
    [%.], after [%.p]. *)
Inductive pstate : Type := Text | Percent | Dot | Prec (p : nat).

(** One pass over the format string, as fmt's [doPrintf]: literal text is
    copied, each verb consumes the next operand.  Precisions of one digit
    are read; flags and widths do not occur in event.go. *)
Fixpoint scan `{Externals} (format : string) (st : pstate) (lit : string)
  (args : list arg) : list piece :=
  match format with
  | EmptyString =>
      (flush lit
       ++ match st with Text => [] | _ => [Bad "%"] end
       ++ match args with [] => [] | _ :: _ => [Bad "!"] end)%list
  | String c rest =>
      let verb (p : option nat) :=
        (flush lit
         ++ match args with
            | [] => Bad c :: scan rest Text "" []
            | a :: args' => operand p c a :: scan rest Text "" args'
            end)%list in
      match st with
      | Text =>
          if Ascii.eqb c "%" then scan rest Percent lit args
          else scan rest Text (lit ++ String c "") args
      | Percent =>
          if Ascii.eqb c "%" then scan rest Text (lit ++ "%") args
          else if Ascii.eqb c "." then scan rest Dot lit args
          else verb None
      | Dot =>
          match digit c with
          | Some n => scan rest (Prec n) lit args
          | None => verb (Some 0%nat)
          end
      | Prec p => verb (Some p)
      end
  end.

(** [w.Printf(format, args...)] and [w.SafeString(s)] append to the buffer. *)
Definition Printf `{Externals} (w : SafePrinter) (format : string) (args : list arg)
  : SafePrinter :=
  (w ++ scan format Text "" args)%list.

Definition SafeString (w : SafePrinter) (s : string) : SafePrinter :=
  (w ++ [Arg safe s])%list.

(** [redact.Sprintfn(f)] runs [f] on an empty buffer. *)
Definition Sprintfn (printer : SafePrinter -> SafePrinter) : RedactableString :=
  printer [].

(** The redaction markers, U+2039 and U+203A in UTF-8. *)
Definition startRedactable : string :=
  String (ascii_of_nat 226) (String (ascii_of_nat 128) (String (ascii_of_nat 185) "")).
Definition endRedactable : string :=
  String (ascii_of_nat 226) (String (ascii_of_nat 128) (String (ascii_of_nat 186) "")).

Definition piece_text (p : piece) : string :=
  match p with
  | Lit s => s
  | Arg safe s => s
  | Arg unsafe s => startRedactable ++ s ++ endRedactable
  | Bad c => "%!" ++ String c "(BADARG)"
  end.

(** [string(r)] for a redactable string [r]: the text, markers included. *)
Definition to_string (r : RedactableString) : string :=
  String.concat "" (map piece_text r).

(** The operands tagged unsafe, the ones a redaction pass elides; those
    tagged safe; and the fragments of format text; each in order. *)
Definition unsafe_args (r : RedactableString) : list string :=
  flat_map (fun p => match p with Arg unsafe s => [s] | _ => [] end) r.

Definition safe_args (r : RedactableString) : list string :=
  flat_map (fun p => match p with Arg safe s => [s] | _ => [] end) r.

Definition literals (r : RedactableString) : list string :=
  flat_map (fun p => match p with Lit s => [s] | _ => [] end) r.

End redact.

Import redact.

(** [redactSprint(s)]: [string(redact.Sprintfn(func(w) { s.SafeFormat(w, 's') }))]. *)
Definition redactSprint (SafeFormat : SafePrinter -> SafePrinter) : string :=
  to_string (Sprintfn SafeFormat).

(** ** Tables and levels *)

Module TableInfo.
(** Modelled from the spec: [manifest.TableInfo] is declared in another
    package; "TableInfo: {FileNum, Size (bytes)}".  [Size] is a [uint64]. *)
Record t : Type := mk { FileNum : Z; Size : Z }.
End TableInfo.

Fixpoint tablesTotalSize_loop (tables : list TableInfo.t) (size : Z) : Z :=
  match tables with
  | [] => size
  | t :: rest => tablesTotalSize_loop rest (Go.uint64_wrap (size + TableInfo.Size t))
  end.

Definition tablesTotalSize (tables : list TableInfo.t) : Z :=
  tablesTotalSize_loop tables 0.

(** The loop of [formatFileNums], [i] being the index of the head of [tables]. *)
Fixpoint formatFileNums_loop `{Externals} (i : nat) (tables : list TableInfo.t)
  (buf : string) : string :=
  match tables with
  | [] => buf
  | t :: rest =>
      let buf := if (0 <? i)%nat then buf ++ " " else buf in
      let buf := buf ++ FileNum_String (TableInfo.FileNum t) in
      formatFileNums_loop (S i) rest buf
  end.

Definition formatFileNums `{Externals} (tables : list TableInfo.t) : string :=
  formatFileNums_loop 0 tables "".

Module LevelInfo.

Record t : Type := mk { Level : Z; Tables : list TableInfo.t }.

Definition safeFormat `{Externals} (i : t) (w : SafePrinter) : SafePrinter :=
  Printf w "L%d [%s] (%s)"
    [Safe (VInt (Level i));
     Safe (VString (formatFileNums (Tables i)));
     Safe (VString (humanize_Uint64 (tablesTotalSize (Tables i))))].

Definition String `{Externals} (i : t) : string :=
  to_string (Sprintfn (safeFormat i)).

End LevelInfo.

(** The output rate both completed shapes print:
    [humanize.Uint64(uint64(float64(outputSize)/i.Duration.Seconds()))]. *)
Definition rate_quotient (outputSize : Z) (d : Go.Duration) : Go.float64 :=
  Go.fdiv (Go.float64_of_int outputSize) (Go.Seconds d).

Definition output_rate `{Externals} (outputSize : Z) (d : Go.Duration) : string :=
  humanize_Uint64
    (Go.uint64_of_float64 uint64_of_unrepresentable (rate_quotient outputSize d)).

(** ** Event payloads and their rendering *)

Module CompactionInfo.

Record t : Type := mk {
  JobID : Z;
  Reason : string;
  Input : list LevelInfo.t;
  Output : LevelInfo.t;
  Duration : Go.Duration;
  Done : bool;
  Err : option error
}.

(** The loop of [safeFormatInputs], [j] being the index of the head. *)
Fixpoint safeFormatInputs_loop `{Externals} (j : nat) (input : list LevelInfo.t)
  (w : SafePrinter) : SafePrinter :=
  match input with
  | [] => w
  | levelInfo :: rest =>
      let w := if (0 <? j)%nat then Printf w " + " [] else w in
      let w := LevelInfo.safeFormat levelInfo w in
      safeFormatInputs_loop (S j) rest w
  end.

Definition safeFormatInputs `{Externals} (i : t) (w : SafePrinter) : SafePrinter :=
  safeFormatInputs_loop 0 (Input i) w.

Definition SafeFormat `{Externals} (i : t) (w : SafePrinter) : SafePrinter :=
  match Err i with
  | Some _ =>
      Printf w "[JOB %d] compaction to L%d error: %s"
        [Safe (VInt (JobID i)); Safe (VInt (LevelInfo.Level (Output i)));
         Plain (VError (Err i))]
  | None =>
      if negb (Done i) then
        let w := Printf w "[JOB %d] compacting " [Safe (VInt (JobID i))] in
        safeFormatInputs i w
      else
        let outputSize := tablesTotalSize (LevelInfo.Tables (Output i)) in
        let w := Printf w "[JOB %d] compacted " [Safe (VInt (JobID i))] in
        let w := safeFormatInputs i w in
        Printf w " -> L%d [%s] (%s), in %.1fs, output rate %s/s"
          [Safe (VInt (LevelInfo.Level (Output i)));
           Safe (VString (formatFileNums (LevelInfo.Tables (Output i))));
           Safe (VString (humanize_Uint64 outputSize));
           Safe (VFloat (Go.Seconds (Duration i)));
           Safe (VString (output_rate outputSize (Duration i)))]
  end.

Definition String `{Externals} (i : t) : string := redactSprint (SafeFormat i).

End CompactionInfo.

Module FlushInfo.

Record t : Type := mk {
  JobID : Z;
  Reason : string;
  Input : Z;
  Output : list TableInfo.t;
  Duration : Go.Duration;
  Done : bool;
  Err : option error
}.

Definition SafeFormat `{Externals} (i : t) (w : SafePrinter) : SafePrinter :=
  match Err i with
  | Some _ =>
      Printf w "[JOB %d] flush error: %s" [Safe (VInt (JobID i)); Plain (VError (Err i))]
  | None =>
      let plural := "s" in
      let plural := if Input i =? 1 then "" else plural in
      if negb (Done i) then
        let w := Printf w "[JOB %d] flushing %d memtable"
                   [Safe (VInt (JobID i)); Safe (VInt (Input i))] in
        let w := SafeString w plural in
        Printf w " to L0" []
      else
        let outputSize := tablesTotalSize (Output i) in
        Printf w "[JOB %d] flushed %d memtable%s to L0 [%s] (%s), in %.1fs, output rate %s/s"
          [Safe (VInt (JobID i)); Safe (VInt (Input i)); Plain (VSafeString plural);
           Safe (VString (formatFileNums (Output i)));
           Safe (VString (humanize_Uint64 outputSize));
           Safe (VFloat (Go.Seconds (Duration i)));
           Safe (VString (output_rate outputSize (Duration i)))]
  end.

Definition String `{Externals} (i : t) : string := redactSprint (SafeFormat i).

End FlushInfo.

Module ManifestCreateInfo.

Record t : Type := mk { JobID : Z; Path : string; FileNum : Z; Err : option error }.

Definition SafeFormat `{Externals} (i : t) (w : SafePrinter) : SafePrinter :=
  match Err i with
  | Some _ =>
      Printf w "[JOB %d] MANIFEST create error: %s"
        [Safe (VInt (JobID i)); Plain (VError (Err i))]
  | None =>
      Printf w "[JOB %d] MANIFEST created %s"
        [Safe (VInt (JobID i)); Safe (VFileNum (FileNum i))]
  end.

Definition String `{Externals} (i : t) : string := redactSprint (SafeFormat i).

End ManifestCreateInfo.

Module ManifestDeleteInfo.

Record t : Type := mk { JobID : Z; Path : string; FileNum : Z; Err : option error }.

Definition SafeFormat `{Externals} (i : t) (w : SafePrinter) : SafePrinter :=
  match Err i with
  | Some _ =>
      Printf w "[JOB %d] MANIFEST delete error: %s"
        [Safe (VInt (JobID i)); Plain (VError (Err i))]
  | None =>
      Printf w "[JOB %d] MANIFEST deleted %s"
        [Safe (VInt (JobID i)); Safe (VFileNum (FileNum i))]
  end.

Definition String `{Externals} (i : t) : string := redactSprint (SafeFormat i).

End ManifestDeleteInfo.

Module TableCreateInfo.

Record t : Type := mk { JobID : Z; Reason : string; Path : string; FileNum : Z }.

Definition SafeFormat `{Externals} (i : t) (w : SafePrinter) : SafePrinter :=
  Printf w "[JOB %d] %s: sstable created %s"
    [Safe (VInt (JobID i)); Safe (VString (Reason i)); Safe (VFileNum (FileNum i))].

Definition String `{Externals} (i : t) : string := redactSprint (SafeFormat i).

End TableCreateInfo.

Module TableDeleteInfo.

Record t : Type := mk { JobID : Z; Path : string; FileNum : Z; Err : option error }.

Definition SafeFormat `{Externals} (i : t) (w : SafePrinter) : SafePrinter :=
  match Err i with
  | Some _ =>
      Printf w "[JOB %d] sstable delete error %s: %s"
        [Safe (VInt (JobID i)); Safe (VFileNum (FileNum i)); Plain (VError (Err i))]
  | None =>
      Printf w "[JOB %d] sstable deleted %s"
        [Safe (VInt (JobID i)); Safe (VFileNum (FileNum i))]
  end.

Definition String `{Externals} (i : t) : string := redactSprint (SafeFormat i).

End TableDeleteInfo.

Module TableIngestInfo.

(** An element of [Tables]: [struct { TableInfo; Level int }]. *)
Record table : Type := mkTable { Info : TableInfo.t; Level : Z }.

Record t : Type := mk {
  JobID : Z;
  Tables : list table;
  GlobalSeqNum : Z;
  Err : option error
}.

(** The loop over [i.Tables], [j] being the index of the head. *)
Fixpoint SafeFormat_loop `{Externals} (j : nat) (tables : list table)
  (w : SafePrinter) : SafePrinter :=
  match tables with
  | [] => w
  | t :: rest =>
      let w := if (0 <? j)%nat then Printf w "," [] else w in
      let w := Printf w " L%d:%s (%s)"
                 [Safe (VInt (Level t)); Safe (VFileNum (TableInfo.FileNum (Info t)));
                  Safe (VString (humanize_Uint64 (TableInfo.Size (Info t))))] in
      SafeFormat_loop (S j) rest w
  end.

Definition SafeFormat `{Externals} (i : t) (w : SafePrinter) : SafePrinter :=
  match Err i with
  | Some _ =>
      Printf w "[JOB %d] ingest error: %s" [Safe (VInt (JobID i)); Plain (VError (Err i))]
  | None =>
      let w := Printf w "[JOB %d] ingested" [Safe (VInt (JobID i))] in
      SafeFormat_loop 0 (Tables i) w
  end.

Definition String `{Externals} (i : t) : string := redactSprint (SafeFormat i).

End TableIngestInfo.

Module TableStatsInfo.

Record t : Type := mk { JobID : Z }.

Definition SafeFormat `{Externals} (i : t) (w : SafePrinter) : SafePrinter :=
  Printf w "[JOB %d] all initial table stats loaded" [Safe (VInt (JobID i))].

Definition String `{Externals} (i : t) : string := redactSprint (SafeFormat i).

End TableStatsInfo.

Module WALCreateInfo.

Record t : Type := mk {
  JobID : Z;
  Path : string;
  FileNum : Z;
  RecycledFileNum : Z;
  Err : option error
}.

Definition SafeFormat `{Externals} (i : t) (w : SafePrinter) : SafePrinter :=
  match Err i with
  | Some _ =>
      Printf w "[JOB %d] WAL create error: %s"
        [Safe (VInt (JobID i)); Plain (VError (Err i))]
  | None =>
      if RecycledFileNum i =? 0 then
        Printf w "[JOB %d] WAL created %s"
          [Safe (VInt (JobID i)); Safe (VFileNum (FileNum i))]
      else
        Printf w "[JOB %d] WAL created %s (recycled %s)"
          [Safe (VInt (JobID i)); Safe (VFileNum (FileNum i));
           Safe (VFileNum (RecycledFileNum i))]
  end.

Definition String `{Externals} (i : t) : string := redactSprint (SafeFormat i).

End WALCreateInfo.

Module WALDeleteInfo.

Record t : Type := mk { JobID : Z; Path : string; FileNum : Z; Err : option error }.

Definition SafeFormat `{Externals} (i : t) (w : SafePrinter) : SafePrinter :=
  match Err i with
  | Some _ =>
      Printf w "[JOB %d] WAL delete error: %s"
        [Safe (VInt (JobID i)); Plain (VError (Err i))]
  | None =>
      Printf w "[JOB %d] WAL deleted %s"
        [Safe (VInt (JobID i)); Safe (VFileNum (FileNum i))]
  end.

Definition String `{Externals} (i : t) : string := redactSprint (SafeFormat i).

End WALDeleteInfo.

Module WriteStallBeginInfo.

Record t : Type := mk { Reason : string }.

Definition SafeFormat `{Externals} (i : t) (w : SafePrinter) : SafePrinter :=
  Printf w "write stall beginning: %s" [Safe (VString (Reason i))].

Definition String `{Externals} (i : t) : string := redactSprint (SafeFormat i).

End WriteStallBeginInfo.

(** ** The listener and its defaults *)

Module EventListener.

(** How a call ends: it returns, leaving the world in some state, or it
    panics. *)
Inductive outcome (W : Type) : Type :=
| returns (w : W)
| panics.
Arguments returns {W} w.
Arguments panics {W}.

Section Listener.

(** Everything a callback or a logger can touch. *)
Variable World : Type.

(** A Go [func(A)]: it runs in the world it finds. *)
Definition callback (A : Type) : Type := A -> World -> outcome World.

(** Modelled from the spec: the [Logger] interface is declared in another
    file; "a sink accepting a format string plus arguments at info
    severity".  A [Logger] value is an [option], [None] for the nil
    interface, on which a method call panics. *)
Record LoggerImpl : Type := { Infof : string -> list arg -> World -> outcome World }.
Definition Logger : Type := option LoggerImpl.

Definition Logger_Infof (logger : Logger) (format : string) (args : list arg)
  : World -> outcome World :=
  match logger with
  | Some impl => Infof impl format args
  | None => fun _ => panics
  end.

(** A field of function type is an [option], [None] for nil. *)
Record t : Type := mk {
  BackgroundError : option (callback (option error));
  CompactionBegin : option (callback CompactionInfo.t);
  CompactionEnd : option (callback CompactionInfo.t);
  FlushBegin : option (callback FlushInfo.t);
  FlushEnd : option (callback FlushInfo.t);
  ManifestCreated : option (callback ManifestCreateInfo.t);
  ManifestDeleted : option (callback ManifestDeleteInfo.t);
  TableCreated : option (callback TableCreateInfo.t);
  TableDeleted : option (callback TableDeleteInfo.t);
  TableIngested : option (callback TableIngestInfo.t);
  TableStatsLoaded : option (callback TableStatsInfo.t);
  WALCreated : option (callback WALCreateInfo.t);
  WALDeleted : option (callback WALDeleteInfo.t);
  WriteStallBegin : option (callback WriteStallBeginInfo.t);
  WriteStallEnd : option (World -> outcome World)
}.

(** The assignments [l.X = h], one per field. *)
Definition set_BackgroundError (h : callback (option error)) (l : t) : t :=
  mk (Some h) (CompactionBegin l) (CompactionEnd l) (FlushBegin l) (FlushEnd l)
    (ManifestCreated l) (ManifestDeleted l) (TableCreated l) (TableDeleted l)
    (TableIngested l) (TableStatsLoaded l) (WALCreated l) (WALDeleted l)
    (WriteStallBegin l) (WriteStallEnd l).

Definition set_CompactionBegin (h : callback CompactionInfo.t) (l : t) : t :=
  mk (BackgroundError l) (Some h) (CompactionEnd l) (FlushBegin l) (FlushEnd l)
    (ManifestCreated l) (ManifestDeleted l) (TableCreated l) (TableDeleted l)
    (TableIngested l) (TableStatsLoaded l) (WALCreated l) (WALDeleted l)
    (WriteStallBegin l) (WriteStallEnd l).

Definition set_CompactionEnd (h : callback CompactionInfo.t) (l : t) : t :=
  mk (BackgroundError l) (CompactionBegin l) (Some h) (FlushBegin l) (FlushEnd l)
    (ManifestCreated l) (ManifestDeleted l) (TableCreated l) (TableDeleted l)
    (TableIngested l) (TableStatsLoaded l) (WALCreated l) (WALDeleted l)
    (WriteStallBegin l) (WriteStallEnd l).

Definition set_FlushBegin (h : callback FlushInfo.t) (l : t) : t :=
  mk (BackgroundError l) (CompactionBegin l) (CompactionEnd l) (Some h) (FlushEnd l)
    (ManifestCreated l) (ManifestDeleted l) (TableCreated l) (TableDeleted l)
    (TableIngested l) (TableStatsLoaded l) (WALCreated l) (WALDeleted l)
    (WriteStallBegin l) (WriteStallEnd l).

Definition set_FlushEnd (h : callback FlushInfo.t) (l : t) : t :=
  mk (BackgroundError l) (CompactionBegin l) (CompactionEnd l) (FlushBegin l) (Some h) (ManifestCreated l) (ManifestDeleted l) (TableCreated l) (TableDeleted l)
    (TableIngested l) (TableStatsLoaded l) (WALCreated l) (WALDeleted l)
    (WriteStallBegin l) (WriteStallEnd l).

Definition set_ManifestCreated (h : callback ManifestCreateInfo.t) (l : t) : t :=
  mk (BackgroundError l) (CompactionBegin l) (CompactionEnd l) (FlushBegin l)
    (FlushEnd l) (Some h) (ManifestDeleted l) (TableCreated l) (TableDeleted l)
    (TableIngested l) (TableStatsLoaded l) (WALCreated l) (WALDeleted l)
    (WriteStallBegin l) (WriteStallEnd l).

Definition set_ManifestDeleted (h : callback ManifestDeleteInfo.t) (l : t) : t :=
  mk (BackgroundError l) (CompactionBegin l) (CompactionEnd l) (FlushBegin l)
    (FlushEnd l) (ManifestCreated l) (Some h) (TableCreated l) (TableDeleted l)
    (TableIngested l) (TableStatsLoaded l) (WALCreated l) (WALDeleted l)
    (WriteStallBegin l) (WriteStallEnd l).

Definition set_TableCreated (h : callback TableCreateInfo.t) (l : t) : t :=
  mk (BackgroundError l) (CompactionBegin l) (CompactionEnd l) (FlushBegin l)
    (FlushEnd l) (ManifestCreated l) (ManifestDeleted l) (Some h) (TableDeleted l)
    (TableIngested l) (TableStatsLoaded l) (WALCreated l) (WALDeleted l)
    (WriteStallBegin l) (WriteStallEnd l).

Definition set_TableDeleted (h : callback TableDeleteInfo.t) (l : t) : t :=
  mk (BackgroundError l) (CompactionBegin l) (CompactionEnd l) (FlushBegin l)
    (FlushEnd l) (ManifestCreated l) (ManifestDeleted l) (TableCreated l) (Some h)
    (TableIngested l) (TableStatsLoaded l) (WALCreated l) (WALDeleted l)
    (WriteStallBegin l) (WriteStallEnd l).

Definition set_TableIngested (h : callback TableIngestInfo.t) (l : t) : t :=
  mk (BackgroundError l) (CompactionBegin l) (CompactionEnd l) (FlushBegin l)
    (FlushEnd l) (ManifestCreated l) (ManifestDeleted l) (TableCreated l)
    (TableDeleted l) (Some h) (TableStatsLoaded l) (WALCreated l) (WALDeleted l)
    (WriteStallBegin l) (WriteStallEnd l).

Definition set_TableStatsLoaded (h : callback TableStatsInfo.t) (l : t) : t :=
  mk (BackgroundError l) (CompactionBegin l) (CompactionEnd l) (FlushBegin l)
    (FlushEnd l) (ManifestCreated l) (ManifestDeleted l) (TableCreated l)
    (TableDeleted l) (TableIngested l) (Some h) (WALCreated l) (WALDeleted l)
    (WriteStallBegin l) (WriteStallEnd l).

Definition set_WALCreated (h : callback WALCreateInfo.t) (l : t) : t :=
  mk (BackgroundError l) (CompactionBegin l) (CompactionEnd l) (FlushBegin l)
    (FlushEnd l) (ManifestCreated l) (ManifestDeleted l) (TableCreated l)
    (TableDeleted l) (TableIngested l) (TableStatsLoaded l) (Some h) (WALDeleted l)
    (WriteStallBegin l) (WriteStallEnd l).

Definition set_WALDeleted (h : callback WALDeleteInfo.t) (l : t) : t :=
  mk (BackgroundError l) (CompactionBegin l) (CompactionEnd l) (FlushBegin l)
    (FlushEnd l) (ManifestCreated l) (ManifestDeleted l) (TableCreated l)
    (TableDeleted l) (TableIngested l) (TableStatsLoaded l) (WALCreated l) (Some h)
    (WriteStallBegin l) (WriteStallEnd l).

Definition set_WriteStallBegin (h : callback WriteStallBeginInfo.t) (l : t) : t :=
  mk (BackgroundError l) (CompactionBegin l) (CompactionEnd l) (FlushBegin l)
    (FlushEnd l) (ManifestCreated l) (ManifestDeleted l) (TableCreated l)
    (TableDeleted l) (TableIngested l) (TableStatsLoaded l) (WALCreated l)
    (WALDeleted l) (Some h) (WriteStallEnd l).

Definition set_WriteStallEnd (h : World -> outcome World) (l : t) : t :=
  mk (BackgroundError l) (CompactionBegin l) (CompactionEnd l) (FlushBegin l)
    (FlushEnd l) (ManifestCreated l) (ManifestDeleted l) (TableCreated l)
    (TableDeleted l) (TableIngested l) (TableStatsLoaded l) (WALCreated l)
    (WALDeleted l) (WriteStallBegin l) (Some h).

(** [if l.X == nil { l.X = d }], for the field read by [get] and written
    by [set]. *)
Definition is_nil {A : Type} (slot : option A) : bool :=
  match slot with
  | Some _ => false
  | None => true
  end.

Definition ensure_slot {A : Type} (get : t -> option A) (set : A -> t -> t) (d : A)
  (l : t) : t :=
  if is_nil (get l) then set d l else l.

(** [EnsureDefaults] updates the listener in place, one field after the
    other. *)
Definition EnsureDefaults (l : t) (logger : Logger) : t :=
  let l := ensure_slot BackgroundError set_BackgroundError
             (fun err => Logger_Infof logger "background error: %s" [Plain (VError err)])
             l in
  let l := ensure_slot CompactionBegin set_CompactionBegin (fun info w => returns w) l in
  let l := ensure_slot CompactionEnd set_CompactionEnd (fun info w => returns w) l in
  let l := ensure_slot FlushBegin set_FlushBegin (fun info w => returns w) l in
  let l := ensure_slot FlushEnd set_FlushEnd (fun info w => returns w) l in
  let l := ensure_slot ManifestCreated set_ManifestCreated (fun info w => returns w) l in
  let l := ensure_slot ManifestDeleted set_ManifestDeleted (fun info w => returns w) l in
  let l := ensure_slot TableCreated set_TableCreated (fun info w => returns w) l in
  let l := ensure_slot TableDeleted set_TableDeleted (fun info w => returns w) l in
  let l := ensure_slot TableIngested set_TableIngested (fun info w => returns w) l in
  let l := ensure_slot TableStatsLoaded set_TableStatsLoaded (fun info w => returns w) l in
  let l := ensure_slot WALCreated set_WALCreated (fun info w => returns w) l in
  let l := ensure_slot WALDeleted set_WALDeleted (fun info w => returns w) l in
  let l := ensure_slot WriteStallBegin set_WriteStallBegin (fun info w => returns w) l in
  let l := ensure_slot WriteStallEnd set_WriteStallEnd (fun w => returns w) l in
  l.

End Listener.

Arguments Infof {World} _ _ _ _.
Arguments Logger_Infof {World} _ _ _ _.
Arguments BackgroundError {World} _.
Arguments CompactionBegin {World} _.
Arguments CompactionEnd {World} _.
Arguments FlushBegin {World} _.
Arguments FlushEnd {World} _.
Arguments ManifestCreated {World} _.
Arguments ManifestDeleted {World} _.
Arguments TableCreated {World} _.
Arguments TableDeleted {World} _.
Arguments TableIngested {World} _.
Arguments TableStatsLoaded {World} _.
Arguments WALCreated {World} _.
Arguments WALDeleted {World} _.
Arguments WriteStallBegin {World} _.
Arguments WriteStallEnd {World} _.
Arguments EnsureDefaults {World} _ _.
Arguments set_BackgroundError {World} _ _.
Arguments set_CompactionBegin {World} _ _.
Arguments set_CompactionEnd {World} _ _.
Arguments set_FlushBegin {World} _ _.
Arguments set_FlushEnd {World} _ _.
Arguments set_ManifestCreated {World} _ _.
Arguments set_ManifestDeleted {World} _ _.
Arguments set_TableCreated {World} _ _.
Arguments set_TableDeleted {World} _ _.
Arguments set_TableIngested {World} _ _.
Arguments set_TableStatsLoaded {World} _ _.
Arguments set_WALCreated {World} _ _.
Arguments set_WALDeleted {World} _ _.
Arguments set_WriteStallBegin {World} _ _.
Arguments set_WriteStallEnd {World} _ _.
Arguments ensure_slot {World A} _ _ _ _.

End EventListener.

(** ** The payloads as one type

    [redactSprint] takes a [redact.SafeFormatter]; these are the types of
    event.go that implement it. *)

Inductive payload : Type :=
| Compaction (i : CompactionInfo.t)
| Flush (i : FlushInfo.t)
| ManifestCreate (i : ManifestCreateInfo.t)
| ManifestDelete (i : ManifestDeleteInfo.t)
| TableCreate (i : TableCreateInfo.t)
| TableDelete (i : TableDeleteInfo.t)
| TableIngest (i : TableIngestInfo.t)
| TableStats (i : TableStatsInfo.t)
| WALCreate (i : WALCreateInfo.t)
| WALDelete (i : WALDeleteInfo.t)
| WriteStallBegin (i : WriteStallBeginInfo.t).

(** [s.SafeFormat(w, 's')] by dynamic dispatch. *)
Definition SafeFormat `{Externals} (s : payload) : SafePrinter -> SafePrinter :=
  match s with
  | Compaction i => CompactionInfo.SafeFormat i
  | Flush i => FlushInfo.SafeFormat i
  | ManifestCreate i => ManifestCreateInfo.SafeFormat i
  | ManifestDelete i => ManifestDeleteInfo.SafeFormat i
  | TableCreate i => TableCreateInfo.SafeFormat i
  | TableDelete i => TableDeleteInfo.SafeFormat i
  | TableIngest i => TableIngestInfo.SafeFormat i
  | TableStats i => TableStatsInfo.SafeFormat i
  | WALCreate i => WALCreateInfo.SafeFormat i
  | WALDelete i => WALDeleteInfo.SafeFormat i
  | WriteStallBegin i => WriteStallBeginInfo.SafeFormat i
  end.

(** The redactable line of a payload, and its [String]. *)
Definition render `{Externals} (s : payload) : RedactableString :=
  Sprintfn (SafeFormat s).

Definition String_of `{Externals} (s : payload) : string :=
  redactSprint (SafeFormat s).

(** The [Err] field, [None] also for the three types that have none. *)
Definition Err_of (s : payload) : option error :=
  match s with
  | Compaction i => CompactionInfo.Err i
  | Flush i => FlushInfo.Err i
  | ManifestCreate i => ManifestCreateInfo.Err i
  | ManifestDelete i => ManifestDeleteInfo.Err i
  | TableDelete i => TableDeleteInfo.Err i
  | TableIngest i => TableIngestInfo.Err i
  | WALCreate i => WALCreateInfo.Err i
  | WALDelete i => WALDeleteInfo.Err i
  | TableCreate _ | TableStats _ | WriteStallBegin _ => None
  end.

(** The event kinds. *)
Inductive kind : Type :=
| KCompaction | KFlush | KManifestCreate | KManifestDelete | KTableCreate
| KTableDelete | KTableIngest | KTableStats | KWALCreate | KWALDelete
| KWriteStallBegin.

Definition kind_of (s : payload) : kind :=
  match s with
  | Compaction _ => KCompaction
  | Flush _ => KFlush
  | ManifestCreate _ => KManifestCreate
  | ManifestDelete _ => KManifestDelete
  | TableCreate _ => KTableCreate
  | TableDelete _ => KTableDelete
  | TableIngest _ => KTableIngest
  | TableStats _ => KTableStats
  | WALCreate _ => KWALCreate
  | WALDelete _ => KWALDelete
  | WriteStallBegin _ => KWriteStallBegin
  end.

Definition JobID_of (s : payload) : option Z :=
  match s with
  | Compaction i => Some (CompactionInfo.JobID i)
  | Flush i => Some (FlushInfo.JobID i)
  | ManifestCreate i => Some (ManifestCreateInfo.JobID i)
  | ManifestDelete i => Some (ManifestDeleteInfo.JobID i)
  | TableCreate i => Some (TableCreateInfo.JobID i)
  | TableDelete i => Some (TableDeleteInfo.JobID i)
  | TableIngest i => Some (TableIngestInfo.JobID i)
  | TableStats i => Some (TableStatsInfo.JobID i)
  | WALCreate i => Some (WALCreateInfo.JobID i)
  | WALDelete i => Some (WALDeleteInfo.JobID i)
  | WriteStallBegin _ => None
  end.

(** What identifies a failed operation besides its job: the output level of
    a compaction, the file of a table deletion. *)
Definition target_of (s : payload) : option Z :=
  match s with
  | Compaction i => Some (LevelInfo.Level (CompactionInfo.Output i))
  | TableDelete i => Some (TableDeleteInfo.FileNum i)
  | _ => None
  end.

(** Two payloads report the same failure: same kind, job, target and error.
    Every other field ([Done], [Duration], [Input], the output tables,
    [Path], [Reason], ...) is free to differ. *)
Definition same_failure (s s' : payload) : Prop :=
  kind_of s = kind_of s' /\ JobID_of s = JobID_of s' /\
  target_of s = target_of s' /\ Err_of s = Err_of s'.

(** The payload with its [Path] replaced (unchanged where there is none). *)
Definition with_Path (path : string) (s : payload) : payload :=
  match s with
  | ManifestCreate i =>
      ManifestCreate (ManifestCreateInfo.mk (ManifestCreateInfo.JobID i) path
                        (ManifestCreateInfo.FileNum i) (ManifestCreateInfo.Err i))
  | ManifestDelete i =>
      ManifestDelete (ManifestDeleteInfo.mk (ManifestDeleteInfo.JobID i) path
                        (ManifestDeleteInfo.FileNum i) (ManifestDeleteInfo.Err i))
  | TableCreate i =>
      TableCreate (TableCreateInfo.mk (TableCreateInfo.JobID i) (TableCreateInfo.Reason i)
                     path (TableCreateInfo.FileNum i))
  | TableDelete i =>
      TableDelete (TableDeleteInfo.mk (TableDeleteInfo.JobID i) path
                     (TableDeleteInfo.FileNum i) (TableDeleteInfo.Err i))
  | WALCreate i =>
      WALCreate (WALCreateInfo.mk (WALCreateInfo.JobID i) path (WALCreateInfo.FileNum i)
                   (WALCreateInfo.RecycledFileNum i) (WALCreateInfo.Err i))
  | WALDelete i =>
      WALDelete (WALDeleteInfo.mk (WALDeleteInfo.JobID i) path
                   (WALDeleteInfo.FileNum i) (WALDeleteInfo.Err i))
  | _ => s
  end.

(** A compaction or flush with its [Reason] replaced. *)
Definition with_job_Reason (reason : string) (s : payload) : payload :=
  match s with
  | Compaction i =>
      Compaction (CompactionInfo.mk (CompactionInfo.JobID i) reason (CompactionInfo.Input i)
                    (CompactionInfo.Output i) (CompactionInfo.Duration i)
                    (CompactionInfo.Done i) (CompactionInfo.Err i))
  | Flush i =>
      Flush (FlushInfo.mk (FlushInfo.JobID i) reason (FlushInfo.Input i) (FlushInfo.Output i)
               (FlushInfo.Duration i) (FlushInfo.Done i) (FlushInfo.Err i))
  | _ => s
  end.

(** ** Vocabulary of the statements *)

(** [contains needle s]: [needle] occurs in [s]. *)
Fixpoint contains (needle s : string) : bool :=
  String.prefix needle s
  || match s with
     | EmptyString => false
     | String _ rest => contains needle rest
     end.

(** Some fragment of the format text of [r] contains [needle]. *)
Definition says (needle : string) (r : RedactableString) : bool :=
  existsb (contains needle) (literals r).

(** A value is tagged sensitive in [r]: it is one of the unsafe operands. *)
Definition tagged_sensitive (v : string) (r : RedactableString) : Prop :=
  In (Arg unsafe v) r.

Definition tagged_safe (v : string) (r : RedactableString) : Prop :=
  In (Arg safe v) r.

(** The spec's words for a level group: the level, the file tokens
    space-separated inside brackets, the total size in parentheses. *)
Definition file_tokens `{Externals} (tables : list TableInfo.t) : string :=
  String.concat " " (map (fun t => FileNum_String (TableInfo.FileNum t)) tables).

Definition level_group `{Externals} (l : LevelInfo.t) : string :=
  "L" ++ fmt.d (LevelInfo.Level l) ++ " [" ++ file_tokens (LevelInfo.Tables l) ++ "] ("
  ++ humanize_Uint64 (tablesTotalSize (LevelInfo.Tables l)) ++ ")".

(** The statistics a completed compaction or flush ends with. *)
Definition output_stats `{Externals} (tables : list TableInfo.t) (d : Go.Duration) : string :=
  " [" ++ file_tokens tables ++ "] (" ++ humanize_Uint64 (tablesTotalSize tables)
  ++ "), in " ++ fmt.f 1 (Go.Seconds d) ++ "s, output rate "
  ++ output_rate (tablesTotalSize tables) d ++ "/s".

(** One ingested table: level, file number, humanized size. *)
Definition ingested_table `{Externals} (t : TableIngestInfo.table) : string :=
  " L" ++ fmt.d (TableIngestInfo.Level t) ++ ":"
  ++ FileNum_String (TableInfo.FileNum (TableIngestInfo.Info t))
  ++ " (" ++ humanize_Uint64 (TableInfo.Size (TableIngestInfo.Info t)) ++ ")".

(** The float handed to [uint64(...)] is one the language converts. *)
Definition fits_uint64 (x : Go.float64) : bool :=
  match Go.trunc x with
  | Some z => (0 <=? z) && (z <? 2 ^ 64)
  | None => false
  end.

(** ** Sample externals, for closed statements

    File numbers as six-digit tokens, sizes as a byte count, and two
    platforms that differ in [uint64] of an unrepresentable float: one
    answers [2^63] whatever the operand, the other saturates. *)

Definition six_digits (n : Z) : string :=
  let s := fmt.d n in fmt.zeros (6 - String.length s) ++ s.

Definition bytes (n : Z) : string := fmt.d n ++ " B".

Definition sample : Externals :=
  {| FileNum_String := six_digits;
     humanize_Uint64 := bytes;
     uint64_of_unrepresentable := fun _ => 2 ^ 63 |}.

Definition saturate (x : Go.float64) : Z :=
  match x with
  | S754_infinity false | S754_finite false _ _ => 2 ^ 64 - 1
  | _ => 0
  end.

Definition sample_saturating : Externals :=
  {| FileNum_String := six_digits;
     humanize_Uint64 := bytes;
     uint64_of_unrepresentable := saturate |}.

(** ** Sample payloads *)

Definition disk_full : error := mkError "disk full".

(** A compaction that failed, reported once as done and once as not. *)
Definition failed_compaction : CompactionInfo.t :=
  CompactionInfo.mk 7 "" [LevelInfo.mk 0 [TableInfo.mk 100 1000]]
    (LevelInfo.mk 1 [TableInfo.mk 101 900]) (1 * Go.Second) true (Some disk_full).

Definition failed_compaction_begun : CompactionInfo.t :=
  CompactionInfo.mk 7 "size" [] (LevelInfo.mk 1 []) 0 false (Some disk_full).

(** A compaction of two levels into one file. *)
Definition two_level_compaction : CompactionInfo.t :=
  CompactionInfo.mk 5 ""
    [LevelInfo.mk 0 [TableInfo.mk 4 700; TableInfo.mk 5 800]; LevelInfo.mk 1 [TableInfo.mk 6 772]]
    (LevelInfo.mk 1 [TableInfo.mk 7 786]) (2 * Go.Second) true None.

(** A completed compaction and a completed flush that took no time. *)
Definition instant_compaction : CompactionInfo.t :=
  CompactionInfo.mk 7 "" [LevelInfo.mk 0 [TableInfo.mk 100 1000]]
    (LevelInfo.mk 1 [TableInfo.mk 101 900]) 0 true None.

Definition instant_flush : FlushInfo.t := FlushInfo.mk 3 "" 1 [] 0 true None.

Definition flush_of_two : FlushInfo.t := FlushInfo.mk 3 "" 2 [] 0 false None.

Definition created_table : TableCreateInfo.t :=
  TableCreateInfo.mk 1 "flushing" "/data/000005.sst" 5.

Definition stall : WriteStallBeginInfo.t :=
  WriteStallBeginInfo.mk "memtable count limit reached".

Definition fresh_wal : WALCreateInfo.t := WALCreateInfo.mk 2 "/data/000008.log" 8 0 None.

Definition recycled_wal : WALCreateInfo.t := WALCreateInfo.mk 2 "/data/000008.log" 8 3 None.

Definition ingestion : TableIngestInfo.t :=
  TableIngestInfo.mk 9
    [TableIngestInfo.mkTable (TableInfo.mk 11 2048) 6;
     TableIngestInfo.mkTable (TableInfo.mk 12 512) 0]
    41 None.

(** A logger that keeps the lines it is given, rendered, in a world that is
    the list of lines logged so far. *)
Definition recording_logger : EventListener.Logger (list string) :=
  Some {| EventListener.Infof := fun format args w =>
            EventListener.returns
              (w ++ [to_string (Printf (H := sample) [] format args)])%list |}.

(** Calling a slot: a nil function panics. *)
Definition call {World A : Type} (slot : option (EventListener.callback World A))
  (a : A) (w : World) : EventListener.outcome World :=
  match slot with
  | Some h => h a w
  | None => EventListener.panics
  end.

(** ** Vocabulary of the listener statements *)

Module Slots.

Import EventListener.

(** What [EnsureDefaults] is to make of one slot: a function that is there
    stays, a nil slot receives the default [d]. *)
Definition ensure {A : Type} (slot : option A) (d : A) : option A :=
  match slot with
  | Some h => Some h
  | None => Some d
  end.

(** A slot that was set holds the same function afterwards. *)
Definition kept {A : Type} (before after : option A) : Prop :=
  forall h : A, before = Some h -> after = Some h.

(** A callback that returns at once and leaves the world as it found it. *)
Definition noop {World A : Type} (h : callback World A) : Prop :=
  forall (a : A) (w : World), h a w = returns w.

(** A slot that was nil holds a no-op afterwards. *)
Definition filled_with_noop {World A : Type}
  (before after : option (callback World A)) : Prop :=
  before = None -> exists h, after = Some h /\ noop h.

Definition all_kept {World : Type} (l l' : t World) : Prop :=
  kept (BackgroundError l) (BackgroundError l')
  /\ kept (CompactionBegin l) (CompactionBegin l')
  /\ kept (CompactionEnd l) (CompactionEnd l')
  /\ kept (FlushBegin l) (FlushBegin l')
  /\ kept (FlushEnd l) (FlushEnd l')
  /\ kept (ManifestCreated l) (ManifestCreated l')
  /\ kept (ManifestDeleted l) (ManifestDeleted l')
  /\ kept (TableCreated l) (TableCreated l')
  /\ kept (TableDeleted l) (TableDeleted l')
  /\ kept (TableIngested l) (TableIngested l')
  /\ kept (TableStatsLoaded l) (TableStatsLoaded l')
  /\ kept (WALCreated l) (WALCreated l')
  /\ kept (WALDeleted l) (WALDeleted l')
  /\ kept (WriteStallBegin l) (WriteStallBegin l')
  /\ kept (WriteStallEnd l) (WriteStallEnd l').

(** Every payload slot that was nil holds a no-op afterwards. *)
Definition unset_are_noops {World : Type} (l l' : t World) : Prop :=
  filled_with_noop (CompactionBegin l) (CompactionBegin l')
  /\ filled_with_noop (CompactionEnd l) (CompactionEnd l')
  /\ filled_with_noop (FlushBegin l) (FlushBegin l')
  /\ filled_with_noop (FlushEnd l) (FlushEnd l')
  /\ filled_with_noop (ManifestCreated l) (ManifestCreated l')
  /\ filled_with_noop (ManifestDeleted l) (ManifestDeleted l')
  /\ filled_with_noop (TableCreated l) (TableCreated l')
  /\ filled_with_noop (TableDeleted l) (TableDeleted l')
  /\ filled_with_noop (TableIngested l) (TableIngested l')
  /\ filled_with_noop (TableStatsLoaded l) (TableStatsLoaded l')
  /\ filled_with_noop (WALCreated l) (WALCreated l')
  /\ filled_with_noop (WALDeleted l) (WALDeleted l')
  /\ filled_with_noop (WriteStallBegin l) (WriteStallBegin l')
  /\ (WriteStallEnd l = None ->
      exists h, WriteStallEnd l' = Some h /\ forall w : World, h w = returns w).

Definition is_set {A : Type} (slot : option A) : bool :=
  match slot with
  | Some _ => true
  | None => false
  end.

(** No slot is nil. *)
Definition all_set {World : Type} (l : t World) : bool :=
  is_set (BackgroundError l) && is_set (CompactionBegin l) && is_set (CompactionEnd l)
  && is_set (FlushBegin l) && is_set (FlushEnd l) && is_set (ManifestCreated l)
  && is_set (ManifestDeleted l) && is_set (TableCreated l) && is_set (TableDeleted l)
  && is_set (TableIngested l) && is_set (TableStatsLoaded l) && is_set (WALCreated l)
  && is_set (WALDeleted l) && is_set (WriteStallBegin l) && is_set (WriteStallEnd l).

(** The listener with every slot nil. *)
Definition empty (World : Type) : t World :=
  mk World None None None None None None None None None None None None None None None.

(** A slot that was nil holds the function [d] afterwards. *)
Definition filled_with {A : Type} (before after : option A) (d : A) : Prop :=
  before = None -> after = Some d.

(** Every slot of [l] that was nil holds in [l'] the default that
    [EnsureDefaults] writes: for [BackgroundError] the one that logs to
    [logger], for the others the function that does nothing. *)
Definition all_filled {World : Type} (logger : Logger World) (l l' : t World) : Prop :=
  filled_with (BackgroundError l) (BackgroundError l')
    (fun err => Logger_Infof logger "background error: %s" [Plain (VError err)])
  /\ filled_with (CompactionBegin l) (CompactionBegin l') (fun info w => returns w)
  /\ filled_with (CompactionEnd l) (CompactionEnd l') (fun info w => returns w)
  /\ filled_with (FlushBegin l) (FlushBegin l') (fun info w => returns w)
  /\ filled_with (FlushEnd l) (FlushEnd l') (fun info w => returns w)
  /\ filled_with (ManifestCreated l) (ManifestCreated l') (fun info w => returns w)
  /\ filled_with (ManifestDeleted l) (ManifestDeleted l') (fun info w => returns w)
  /\ filled_with (TableCreated l) (TableCreated l') (fun info w => returns w)
  /\ filled_with (TableDeleted l) (TableDeleted l') (fun info w => returns w)
  /\ filled_with (TableIngested l) (TableIngested l') (fun info w => returns w)
  /\ filled_with (TableStatsLoaded l) (TableStatsLoaded l') (fun info w => returns w)
  /\ filled_with (WALCreated l) (WALCreated l') (fun info w => returns w)
  /\ filled_with (WALDeleted l) (WALDeleted l') (fun info w => returns w)
  /\ filled_with (WriteStallBegin l) (WriteStallBegin l') (fun info w => returns w)
  /\ filled_with (WriteStallEnd l) (WriteStallEnd l') (fun w => returns w).

End Slots.

(** ** The logging listener *)

Module Logging.

(** What [Infof] is handed after the format: the interface takes any values.
    [EnsureDefaults] passes an error only, which [EventListener.LoggerImpl]
    covers; the logging listener passes payloads as well, so an operand here
    is either. *)
Inductive operand : Type :=
| Value (a : arg)
| Formatter (s : payload).

Section Sink.

Variable World : Type.

(** Modelled from the spec: the [Logger] interface is declared in another
    file; "a sink accepting a format string plus arguments at info
    severity".  [None] is the nil interface, on which a method call panics. *)
Record Sink : Type :=
  { Infof : string -> list operand -> World -> EventListener.outcome World }.

Definition Logger : Type := option Sink.

Definition Logger_Infof (logger : Logger) (format : string) (ops : list operand)
  : World -> EventListener.outcome World :=
  match logger with
  | Some sink => Infof sink format ops
  | None => fun _ => EventListener.panics
  end.

(** The same logger as [EnsureDefaults] sees it. *)
Definition as_LoggerImpl (sink : Sink) : EventListener.LoggerImpl World :=
  {| EventListener.Infof := fun format args => Infof sink format (map Value args) |}.

Definition as_Logger (logger : Logger) : EventListener.Logger World :=
  option_map as_LoggerImpl logger.

(** Modelled from the spec: [DefaultLogger] is a variable of another file,
    "a process-wide default sink". *)
Variable DefaultLogger : Logger.

Definition MakeLoggingEventListener (logger : Logger) : EventListener.t World :=
  let logger := match logger with
                | None => DefaultLogger
                | Some _ => logger
                end in
  {| EventListener.BackgroundError :=
       Some (fun err =>
               Logger_Infof logger "background error: %s" [Value (Plain (VError err))]);
     EventListener.CompactionBegin :=
       Some (fun info => Logger_Infof logger "%s" [Formatter (Compaction info)]);
     EventListener.CompactionEnd :=
       Some (fun info => Logger_Infof logger "%s" [Formatter (Compaction info)]);
     EventListener.FlushBegin :=
       Some (fun info => Logger_Infof logger "%s" [Formatter (Flush info)]);
     EventListener.FlushEnd :=
       Some (fun info => Logger_Infof logger "%s" [Formatter (Flush info)]);
     EventListener.ManifestCreated :=
       Some (fun info => Logger_Infof logger "%s" [Formatter (ManifestCreate info)]);
     EventListener.ManifestDeleted :=
       Some (fun info => Logger_Infof logger "%s" [Formatter (ManifestDelete info)]);
     EventListener.TableCreated :=
       Some (fun info => Logger_Infof logger "%s" [Formatter (TableCreate info)]);
     EventListener.TableDeleted :=
       Some (fun info => Logger_Infof logger "%s" [Formatter (TableDelete info)]);
     EventListener.TableIngested :=
       Some (fun info => Logger_Infof logger "%s" [Formatter (TableIngest info)]);
     EventListener.TableStatsLoaded :=
       Some (fun info => Logger_Infof logger "%s" [Formatter (TableStats info)]);
     EventListener.WALCreated :=
       Some (fun info => Logger_Infof logger "%s" [Formatter (WALCreate info)]);
     EventListener.WALDeleted :=
       Some (fun info => Logger_Infof logger "%s" [Formatter (WALDelete info)]);
     EventListener.WriteStallBegin :=
       Some (fun info => Logger_Infof logger "%s" [Formatter (WriteStallBegin info)]);
     EventListener.WriteStallEnd :=
       Some (Logger_Infof logger "write stall ending" []) |}.

End Sink.

Arguments Infof {World} _ _ _ _.
Arguments Logger_Infof {World} _ _ _ _.
Arguments as_LoggerImpl {World} _.
Arguments as_Logger {World} _.
Arguments MakeLoggingEventListener {World} _ _.

End Logging.

(** ** Vocabulary of the further statements *)

(** The sizes added up as integers, with no wrap-around. *)
Definition sum_sizes (tables : list TableInfo.t) : Z :=
  fold_right (fun t acc => TableInfo.Size t + acc) 0 tables.

(** Every size is a [uint64]. *)
Definition sizes_in_range (tables : list TableInfo.t) : Prop :=
  Forall (fun t => 0 <= TableInfo.Size t < 2 ^ 64) tables.

(** The three shapes of a two-phase event. *)
Inductive shape : Type := Failed | InProgress | Completed.

Definition shape_of (err : option error) (done : bool) : shape :=
  match err with
  | Some _ => Failed
  | None => if done then Completed else InProgress
  end.

Definition is_shape (a b : shape) : bool :=
  match a, b with
  | Failed, Failed | InProgress, InProgress | Completed, Completed => true
  | _, _ => false
  end.

(** A sink that keeps the lines it is given, in a world that is the list of
    lines logged so far.  It prints a payload under [%s] through its
    [SafeFormat] and other operands as [Printf] does. *)
Definition rendering_sink : Logging.Sink (list string) :=
  {| Logging.Infof := fun format ops w =>
       let values :=
         flat_map (fun o => match o with Logging.Value a => [a] | Logging.Formatter _ => [] end)
           ops in
       let line :=
         match ops with
         | [Logging.Formatter s] =>
             if String.eqb format "%s" then String_of (H := sample) s
             else to_string [Bad "s"]
         | _ => to_string (Printf (H := sample) [] format values)
         end in
       EventListener.returns (w ++ [line])%list |}.

(** * Properties *)

(** ** The number model on sample values *)

Example fmt_d_7 : fmt.d 7 = "7".
Proof. reflexivity. Qed.

Example fmt_d_neg : fmt.d (-12) = "-12".
Proof. reflexivity. Qed.

Example seconds_1500ms : fmt.f 1 (Go.Seconds 1500000000) = "1.5".
Proof. reflexivity. Qed.

(** 0.25 is a tie and goes to the even digit; 0.35 is below the tie in binary. *)
Example seconds_250ms : fmt.f 1 (Go.Seconds 250000000) = "0.2".
Proof. reflexivity. Qed.

Example seconds_350ms : fmt.f 1 (Go.Seconds 350000000) = "0.3".
Proof. reflexivity. Qed.

Example seconds_12s : fmt.f 1 (Go.Seconds 12040000000) = "12.0".
Proof. reflexivity. Qed.

Example seconds_neg : fmt.f 1 (Go.Seconds (-5)) = "-0.0".
Proof. reflexivity. Qed.

Example rate_1000_bytes_in_1500ms :
  Go.uint64_of_float64 (fun _ => 0) (rate_quotient 1000 1500000000) = 666.
Proof. reflexivity. Qed.

Example printf_diagnostics :
  Printf (H := sample) [] "a%%b %d %s %q" [Safe (VInt 1)]
  = [Lit "a%b "; Arg safe "1"; Lit " "; Bad "s"; Lit " "; Bad "q"].
Proof. reflexivity. Qed.

(** ** Strings and buffers *)

Lemma append_nil_r (s : string) : s ++ "" = s.
Proof. induction s as [|c s IH]; simpl; [reflexivity | now rewrite IH]. Qed.

Lemma append_assoc (a b c : string) : (a ++ b) ++ c = a ++ b ++ c.
Proof. induction a as [|x a IH]; simpl; [reflexivity | now rewrite IH]. Qed.

Lemma to_string_cons (p : piece) (r : RedactableString) :
  to_string (p :: r) = piece_text p ++ to_string r.
Proof.
  unfold to_string. destruct r as [|q r]; simpl.
  - now rewrite append_nil_r.
  - reflexivity.
Qed.

Lemma to_string_app (r r' : RedactableString) :
  to_string (r ++ r')%list = to_string r ++ to_string r'.
Proof.
  induction r as [|p r IH].
  - reflexivity.
  - rewrite <- app_comm_cons, !to_string_cons, IH. now rewrite append_assoc.
Qed.

Lemma concat_cons (sep x : string) (l : list string) :
  String.concat sep (x :: l)
  = x ++ match l with [] => "" | _ :: _ => sep ++ String.concat sep l end.
Proof. destruct l; simpl; [now rewrite append_nil_r | reflexivity]. Qed.

(** ** The loops *)

Section Loops.

Context `{Externals}.

Lemma formatFileNums_loop_spec (tables : list TableInfo.t) :
  forall (i : nat) (buf : string),
    formatFileNums_loop i tables buf
    = buf ++ match tables with
             | [] => ""
             | _ :: _ => (if (0 <? i)%nat then " " else "") ++ file_tokens tables
             end.
Proof.
  induction tables as [|t rest IH]; intros i buf.
  - simpl. now rewrite append_nil_r.
  - cbn [formatFileNums_loop]. rewrite IH.
    unfold file_tokens. cbn [map]. rewrite concat_cons.
    destruct rest as [|t' rest]; destruct (0 <? i)%nat; cbn [Nat.ltb Nat.leb];
      rewrite ?append_assoc, ?append_nil_r; reflexivity.
Qed.

(** [formatFileNums] writes the file tokens separated by one space, in the
    order supplied. *)
Lemma formatFileNums_spec (tables : list TableInfo.t) :
  formatFileNums tables = file_tokens tables.
Proof.
  unfold formatFileNums. rewrite formatFileNums_loop_spec.
  destruct tables; reflexivity.
Qed.

Lemma LevelInfo_safeFormat_text (l : LevelInfo.t) (w : SafePrinter) :
  to_string (LevelInfo.safeFormat l w) = to_string w ++ level_group l.
Proof.
  unfold LevelInfo.safeFormat, Printf. rewrite to_string_app.
  unfold level_group. rewrite <- formatFileNums_spec. reflexivity.
Qed.

Lemma safeFormatInputs_loop_text (input : list LevelInfo.t) :
  forall (j : nat) (w : SafePrinter),
    to_string (CompactionInfo.safeFormatInputs_loop j input w)
    = to_string w
      ++ match input with
         | [] => ""
         | _ :: _ => (if (0 <? j)%nat then " + " else "")
                     ++ String.concat " + " (map level_group input)
         end.
Proof.
  induction input as [|l rest IH]; intros j w.
  - simpl. now rewrite append_nil_r.
  - cbn [CompactionInfo.safeFormatInputs_loop]. rewrite IH, LevelInfo_safeFormat_text.
    cbn [map]. rewrite concat_cons.
    destruct rest as [|l' rest]; destruct (0 <? j)%nat; cbn [Nat.ltb Nat.leb];
      unfold Printf; rewrite ?to_string_app, ?append_assoc, ?append_nil_r; reflexivity.
Qed.

Lemma ingest_loop_text (tables : list TableIngestInfo.table) :
  forall (j : nat) (w : SafePrinter),
    to_string (TableIngestInfo.SafeFormat_loop j tables w)
    = to_string w
      ++ match tables with
         | [] => ""
         | _ :: _ => (if (0 <? j)%nat then "," else "")
                     ++ String.concat "," (map ingested_table tables)
         end.
Proof.
  induction tables as [|t rest IH]; intros j w.
  - simpl. now rewrite append_nil_r.
  - cbn [TableIngestInfo.SafeFormat_loop]. rewrite IH.
    cbn [map]. rewrite concat_cons.
    destruct rest as [|t' rest]; destruct (0 <? j)%nat; cbn [Nat.ltb Nat.leb];
      unfold Printf; rewrite ?to_string_app, ?append_assoc, ?append_nil_r; reflexivity.
Qed.

End Loops.

(** ** The lines of the individual formats *)

Section Formats.

Context `{Externals}.

Lemma job_line_text (format : string) (n : Z) (before after : string) :
  scan format Text "" [Safe (VInt n)] = [Lit before; Arg safe (fmt.d n); Lit after] ->
  to_string (Printf [] format [Safe (VInt n)]) = before ++ fmt.d n ++ after.
Proof.
  unfold Printf. intros ->. cbn [app]. rewrite !to_string_cons. cbn [piece_text].
  unfold to_string. cbn [map String.concat]. now rewrite append_nil_r.
Qed.

Lemma compacted_stats_text (level : Z) (files size rate : string) (x : Go.float64) :
  to_string
    (scan " -> L%d [%s] (%s), in %.1fs, output rate %s/s" Text ""
       [Safe (VInt level); Safe (VString files); Safe (VString size);
        Safe (VFloat x); Safe (VString rate)])
  = " -> L" ++ fmt.d level ++ " [" ++ files ++ "] (" ++ size ++ "), in "
    ++ fmt.f 1 x ++ "s, output rate " ++ rate ++ "/s".
Proof. reflexivity. Qed.

Lemma flushed_text (job input : Z) (plural files size rate : string) (x : Go.float64) :
  to_string
    (Printf []
       "[JOB %d] flushed %d memtable%s to L0 [%s] (%s), in %.1fs, output rate %s/s"
       [Safe (VInt job); Safe (VInt input); Plain (VSafeString plural);
        Safe (VString files); Safe (VString size); Safe (VFloat x);
        Safe (VString rate)])
  = "[JOB " ++ fmt.d job ++ "] flushed " ++ fmt.d input ++ " memtable" ++ plural
    ++ " to L0 [" ++ files ++ "] (" ++ size ++ "), in " ++ fmt.f 1 x
    ++ "s, output rate " ++ rate ++ "/s".
Proof. reflexivity. Qed.

Lemma flushing_text (job input : Z) (plural : string) :
  to_string
    (Printf
       (SafeString
          (Printf [] "[JOB %d] flushing %d memtable" [Safe (VInt job); Safe (VInt input)])
          plural)
       " to L0" [])
  = "[JOB " ++ fmt.d job ++ "] flushing " ++ fmt.d input ++ " memtable" ++ plural
    ++ " to L0".
Proof. reflexivity. Qed.

End Formats.

(** ** Rendering of the two-phase events *)

(** The whole line of a compaction without error, in both shapes. *)
Lemma CompactionInfo_line `{Externals} (i : CompactionInfo.t) :
  CompactionInfo.Err i = None ->
  CompactionInfo.String i
  = "[JOB " ++ fmt.d (CompactionInfo.JobID i)
    ++ (if CompactionInfo.Done i then "] compacted " else "] compacting ")
    ++ String.concat " + " (map level_group (CompactionInfo.Input i))
    ++ (if CompactionInfo.Done i
        then " -> L" ++ fmt.d (LevelInfo.Level (CompactionInfo.Output i))
             ++ output_stats (LevelInfo.Tables (CompactionInfo.Output i))
                  (CompactionInfo.Duration i)
        else "").
Proof.
  intros Herr.
  unfold CompactionInfo.String, redactSprint, Sprintfn, CompactionInfo.SafeFormat.
  rewrite Herr. unfold CompactionInfo.safeFormatInputs.
  destruct (CompactionInfo.Done i); cbn [negb].
  - unfold Printf at 1.
    rewrite to_string_app, safeFormatInputs_loop_text, compacted_stats_text.
    rewrite (job_line_text _ _ "[JOB " "] compacted ") by reflexivity.
    unfold output_stats. rewrite <- formatFileNums_spec.
    destruct (CompactionInfo.Input i); cbn [Nat.ltb Nat.leb];
      rewrite ?append_assoc; reflexivity.
  - rewrite safeFormatInputs_loop_text.
    rewrite (job_line_text _ _ "[JOB " "] compacting ") by reflexivity.
    destruct (CompactionInfo.Input i); cbn [Nat.ltb Nat.leb];
      rewrite ?append_assoc, ?append_nil_r; reflexivity.
Qed.

(** C7. A compaction without error renders its input level groups joined by
    [" + "], and inside each group the file tokens separated by one space
    between brackets, in the order supplied.  This holds for any number of
    groups, in particular for two or more. *)
Theorem compaction_inputs_joined `{Externals} (i : CompactionInfo.t) :
  CompactionInfo.Err i = None ->
  CompactionInfo.String i
  = "[JOB " ++ fmt.d (CompactionInfo.JobID i)
    ++ (if CompactionInfo.Done i then "] compacted " else "] compacting ")
    ++ String.concat " + "
         (map (fun l : LevelInfo.t =>
                 "L" ++ fmt.d (LevelInfo.Level l) ++ " ["
                 ++ String.concat " "
                      (map (fun t => FileNum_String (TableInfo.FileNum t))
                         (LevelInfo.Tables l))
                 ++ "] (" ++ humanize_Uint64 (tablesTotalSize (LevelInfo.Tables l)) ++ ")")
            (CompactionInfo.Input i))
    ++ (if CompactionInfo.Done i
        then " -> L" ++ fmt.d (LevelInfo.Level (CompactionInfo.Output i))
             ++ output_stats (LevelInfo.Tables (CompactionInfo.Output i))
                  (CompactionInfo.Duration i)
        else "").
Proof. exact (CompactionInfo_line i). Qed.

(** C6. The end-to-end compaction scenario: job 7, input level 0 with file
    100 of 1000 bytes, output level 1 with file 101 of 900 bytes, one second,
    done, no error.  The line names the job, both levels and files with their
    humanized sizes, the elapsed time [1.0s], and as rate the humanized value
    of 900 followed by [/s]. *)
Theorem compaction_scenario `{Externals} (reason : string) :
  CompactionInfo.String
    {| CompactionInfo.JobID := 7;
       CompactionInfo.Reason := reason;
       CompactionInfo.Input := [LevelInfo.mk 0 [TableInfo.mk 100 1000]];
       CompactionInfo.Output := LevelInfo.mk 1 [TableInfo.mk 101 900];
       CompactionInfo.Duration := 1 * Go.Second;
       CompactionInfo.Done := true;
       CompactionInfo.Err := None |}
  = "[JOB 7] compacted L0 [" ++ FileNum_String 100 ++ "] (" ++ humanize_Uint64 1000
    ++ ") -> L1 [" ++ FileNum_String 101 ++ "] (" ++ humanize_Uint64 900
    ++ "), in 1.0s, output rate " ++ humanize_Uint64 900 ++ "/s".
Proof. reflexivity. Qed.

Example compaction_scenario_sample :
  CompactionInfo.String (H := sample)
    (CompactionInfo.mk 7 "" [LevelInfo.mk 0 [TableInfo.mk 100 1000]]
       (LevelInfo.mk 1 [TableInfo.mk 101 900]) (1 * Go.Second) true None)
  = "[JOB 7] compacted L0 [000100] (1000 B) -> L1 [000101] (900 B), in 1.0s, output rate 900 B/s".
Proof. reflexivity. Qed.

(** The whole line of a flush without error, in both shapes. *)
Lemma FlushInfo_line `{Externals} (i : FlushInfo.t) :
  FlushInfo.Err i = None ->
  FlushInfo.String i
  = "[JOB " ++ fmt.d (FlushInfo.JobID i)
    ++ (if FlushInfo.Done i then "] flushed " else "] flushing ")
    ++ fmt.d (FlushInfo.Input i)
    ++ (if FlushInfo.Input i =? 1 then " memtable" else " memtables")
    ++ " to L0"
    ++ (if FlushInfo.Done i
        then output_stats (FlushInfo.Output i) (FlushInfo.Duration i)
        else "").
Proof.
  intros Herr.
  unfold FlushInfo.String, redactSprint, Sprintfn, FlushInfo.SafeFormat.
  rewrite Herr.
  destruct (FlushInfo.Done i); cbn [negb].
  - rewrite flushed_text, formatFileNums_spec. unfold output_stats.
    destruct (FlushInfo.Input i =? 1); reflexivity.
  - rewrite flushing_text.
    destruct (FlushInfo.Input i =? 1); reflexivity.
Qed.

(** C8. A flush without error says [memtable] when [Input] is 1 and
    [memtables] for every other count, zero included, both while in progress
    and when completed. *)
Theorem flush_memtable_plural `{Externals} (i : FlushInfo.t) :
  FlushInfo.Err i = None ->
  let line (word : string) : string :=
    "[JOB " ++ fmt.d (FlushInfo.JobID i)
    ++ (if FlushInfo.Done i then "] flushed " else "] flushing ")
    ++ fmt.d (FlushInfo.Input i) ++ " " ++ word ++ " to L0"
    ++ (if FlushInfo.Done i
        then output_stats (FlushInfo.Output i) (FlushInfo.Duration i)
        else "") in
  (FlushInfo.Input i = 1 -> FlushInfo.String i = line "memtable")
  /\ (FlushInfo.Input i <> 1 -> FlushInfo.String i = line "memtables").
Proof.
  intros Herr line. subst line. rewrite (FlushInfo_line i Herr). split.
  - intros ->. reflexivity.
  - intros Hne. apply Z.eqb_neq in Hne. rewrite Hne. reflexivity.
Qed.

(** ** Rendering of the other events *)

(** C9. A WAL creation without error: when [RecycledFileNum] is 0 the line
    ends with the new file and nothing in it speaks of recycling; otherwise
    the line goes on to name the recycled file. *)
Theorem wal_created_recycled `{Externals} (i : WALCreateInfo.t) :
  WALCreateInfo.Err i = None ->
  (WALCreateInfo.RecycledFileNum i = 0 ->
     render (WALCreate i)
     = [Lit "[JOB "; Arg safe (fmt.d (WALCreateInfo.JobID i)); Lit "] WAL created ";
        Arg safe (FileNum_String (WALCreateInfo.FileNum i))]
     /\ says "recycled" (render (WALCreate i)) = false
     /\ WALCreateInfo.String i
        = "[JOB " ++ fmt.d (WALCreateInfo.JobID i) ++ "] WAL created "
          ++ FileNum_String (WALCreateInfo.FileNum i))
  /\ (WALCreateInfo.RecycledFileNum i <> 0 ->
        WALCreateInfo.String i
        = "[JOB " ++ fmt.d (WALCreateInfo.JobID i) ++ "] WAL created "
          ++ FileNum_String (WALCreateInfo.FileNum i)
          ++ " (recycled " ++ FileNum_String (WALCreateInfo.RecycledFileNum i) ++ ")").
Proof.
  intros Herr.
  unfold WALCreateInfo.String, render, redactSprint, Sprintfn, SafeFormat,
    WALCreateInfo.SafeFormat.
  rewrite Herr. split.
  - intros ->. cbn [Z.eqb]. repeat split; reflexivity.
  - intros Hrec. apply Z.eqb_neq in Hrec. rewrite Hrec. reflexivity.
Qed.

(** C10. An ingestion without error lists the job and then, for each table
    in the order supplied, its level, file number and humanized size; the
    line is the same whatever [GlobalSeqNum] is. *)
Theorem ingest_omits_GlobalSeqNum `{Externals} (i : TableIngestInfo.t) :
  TableIngestInfo.Err i = None ->
  TableIngestInfo.String i
  = "[JOB " ++ fmt.d (TableIngestInfo.JobID i) ++ "] ingested"
    ++ String.concat "," (map ingested_table (TableIngestInfo.Tables i))
  /\ forall seq : Z,
       TableIngestInfo.String
         (TableIngestInfo.mk (TableIngestInfo.JobID i) (TableIngestInfo.Tables i) seq
            (TableIngestInfo.Err i))
       = TableIngestInfo.String i.
Proof.
  intros Herr. split.
  - unfold TableIngestInfo.String, redactSprint, Sprintfn, TableIngestInfo.SafeFormat.
    rewrite Herr, ingest_loop_text.
    rewrite (job_line_text _ _ "[JOB " "] ingested") by reflexivity.
    destruct (TableIngestInfo.Tables i); cbn [Nat.ltb Nat.leb];
      rewrite ?append_assoc, ?append_nil_r; reflexivity.
  - intros seq. reflexivity.
Qed.

(** ** Occurrences *)

Lemma prefix_app (a s : string) :
  String.prefix a s = true -> exists b, s = a ++ b.
Proof.
  revert s. induction a as [|c a IH]; intros s Hp.
  - exists s. reflexivity.
  - destruct s as [|c' s]; [discriminate Hp |].
    cbn [String.prefix] in Hp. destruct (ascii_dec c c') as [<- | _]; [| discriminate Hp].
    destruct (IH s Hp) as [b ->]. exists b. reflexivity.
Qed.

(** [contains] finds only what is there. *)
Lemma contains_occurs (needle s : string) :
  contains needle s = true -> exists a b, s = a ++ needle ++ b.
Proof.
  induction s as [|c s IH]; cbn [contains]; intros Hc.
  - rewrite orb_false_r in Hc. destruct (prefix_app _ _ Hc) as [b Hb].
    exists "", b. exact Hb.
  - apply orb_true_iff in Hc. destruct Hc as [Hp | Hrest].
    + destruct (prefix_app _ _ Hp) as [b Hb]. exists "", b. exact Hb.
    + destruct (IH Hrest) as (a & b & ->). exists (String c a), b. reflexivity.
Qed.

(** A fragment of the format text occurs in the rendered string. *)
Lemma literal_occurs (l : string) (r : RedactableString) :
  In l (literals r) -> exists a b, to_string r = a ++ l ++ b.
Proof.
  induction r as [|p r IH]; [intros [] |].
  rewrite to_string_cons.
  destruct p as [l' | m v | c]; cbn [literals flat_map app In piece_text].
  - intros [-> | Hin].
    + exists "", (to_string r). reflexivity.
    + destruct (IH Hin) as (a & b & ->). exists (l' ++ a), b. now rewrite append_assoc.
  - intros Hin. destruct (IH Hin) as (a & b & ->).
    exists (piece_text (Arg m v) ++ a), b. now rewrite append_assoc.
  - intros Hin. destruct (IH Hin) as (a & b & ->).
    exists (piece_text (Bad c) ++ a), b. now rewrite append_assoc.
Qed.

(** What the format text says, the rendered string contains. *)
Lemma says_occurs (needle : string) (r : RedactableString) :
  says needle r = true -> exists a b, to_string r = a ++ needle ++ b.
Proof.
  unfold says. intros Hs. apply existsb_exists in Hs. destruct Hs as (l & Hin & Hc).
  destruct (literal_occurs l r Hin) as (a & b & ->).
  destruct (contains_occurs _ _ Hc) as (a' & b' & ->).
  exists (a ++ a'), (b' ++ b). now rewrite !append_assoc.
Qed.

(** ** The error shape *)

Ltac unfold_SafeFormat :=
  unfold render, String_of, redactSprint, Sprintfn, SafeFormat,
    CompactionInfo.SafeFormat, FlushInfo.SafeFormat, ManifestCreateInfo.SafeFormat,
    ManifestDeleteInfo.SafeFormat, TableCreateInfo.SafeFormat,
    TableDeleteInfo.SafeFormat, TableIngestInfo.SafeFormat, TableStatsInfo.SafeFormat,
    WALCreateInfo.SafeFormat, WALDeleteInfo.SafeFormat, WriteStallBeginInfo.SafeFormat.

(** The completed shapes do carry the rate label, so its absence from the
    error shape says something. *)
Lemma completed_flush_says_output_rate `{Externals} (i : FlushInfo.t) :
  FlushInfo.Err i = None -> FlushInfo.Done i = true ->
  says "output rate" (render (Flush i)) = true.
Proof.
  intros Herr Hdone. unfold_SafeFormat. rewrite Herr, Hdone. reflexivity.
Qed.

Lemma error_line_says_error `{Externals} (s : payload) (e : error) :
  Err_of s = Some e ->
  says "error" (render s) = true /\ says "output rate" (render s) = false.
Proof.
  intros Herr.
  destruct s as [i|i|i|i|i|i|i|i|i|i|i]; cbn [Err_of] in Herr; try discriminate Herr;
    unfold_SafeFormat; rewrite Herr; split; reflexivity.
Qed.

(** C1. When [Err] is set, each of CompactionInfo, FlushInfo,
    ManifestCreateInfo, ManifestDeleteInfo, TableDeleteInfo, WALCreateInfo,
    WALDeleteInfo and TableIngestInfo renders a string that contains [error];
    the fixed text of the line never says [output rate], its only unsafe
    operand is the error's message, and the line is the same for every
    payload reporting the same failure: [Done], [Duration], the inputs, the
    output tables and the other fields play no part. *)
Theorem error_shape_dominates `{Externals} (s s' : payload) (e : error) :
  Err_of s = Some e ->
  (exists before after, String_of s = before ++ "error" ++ after)
  /\ says "error" (render s) = true
  /\ says "output rate" (render s) = false
  /\ unsafe_args (render s) = [Error e]
  /\ (same_failure s s' -> render s' = render s).
Proof.
  intros Herr.
  destruct (error_line_says_error s e Herr) as [Hsays Hrate].
  split; [exact (says_occurs _ _ Hsays) |].
  split; [exact Hsays |]. split; [exact Hrate |].
  clear Hsays Hrate.
  destruct s as [i|i|i|i|i|i|i|i|i|i|i]; cbn [Err_of] in Herr; try discriminate Herr;
    unfold_SafeFormat; rewrite Herr; (split; [reflexivity |]);
    intros (Hkind & Hjob & Htarget & Herr');
    destruct s' as [i'|i'|i'|i'|i'|i'|i'|i'|i'|i'|i']; try discriminate Hkind;
    cbn [JobID_of target_of Err_of] in Hjob, Htarget, Herr';
    rewrite <- Herr', Herr;
    injection Hjob as <-; try (injection Htarget as <-); reflexivity.
Qed.

(** ** The listener's defaults *)

Section Defaults.

Import EventListener Slots.

Context {World : Type}.

Lemma ensure_ensure {A : Type} (slot : option A) (d d' : A) :
  ensure (ensure slot d) d' = ensure slot d.
Proof. destruct slot; reflexivity. Qed.

Lemma ensure_kept {A : Type} (slot : option A) (d : A) : kept slot (ensure slot d).
Proof. intros h ->. reflexivity. Qed.

Lemma ensure_is_set {A : Type} (slot : option A) (d : A) : is_set (ensure slot d) = true.
Proof. destruct slot; reflexivity. Qed.

(** A test-and-assign on one field leaves what is read of the others. *)
Lemma slot_other {A B : Type} (X : t World -> B) (get : t World -> option A)
  (set : A -> t World -> t World) (d : A) (l : t World) :
  (forall l', X (set d l') = X l') -> X (ensure_slot get set d l) = X l.
Proof. intros Hset. unfold ensure_slot. destruct (is_nil (get l)); auto. Qed.

(** On its own field it does what [ensure] says. *)
Lemma slot_same {A : Type} (get : t World -> option A) (set : A -> t World -> t World)
  (d : A) (l : t World) :
  (forall l', get (set d l') = Some d) ->
  get (ensure_slot get set d l) = ensure (get l) d.
Proof.
  intros Hset. unfold ensure_slot.
  destruct (get l) eqn:Hget; cbn [is_nil ensure]; auto.
Qed.

Lemma eta (l : t World) :
  l = mk World (BackgroundError l) (CompactionBegin l) (CompactionEnd l) (FlushBegin l)
        (FlushEnd l) (ManifestCreated l) (ManifestDeleted l) (TableCreated l)
        (TableDeleted l) (TableIngested l) (TableStatsLoaded l) (WALCreated l)
        (WALDeleted l) (WriteStallBegin l) (WriteStallEnd l).
Proof. destruct l; reflexivity. Qed.

Ltac slots :=
  repeat match goal with
    | |- context [?X (ensure_slot ?X ?set ?d ?l)] =>
        rewrite (slot_same X set d l) by (intros []; reflexivity)
    | |- context [?X (ensure_slot ?get ?set ?d ?l)] =>
        rewrite (slot_other X get set d l) by (intros []; reflexivity)
    end.

(** The fifteen steps of [EnsureDefaults] amount to [ensure] on every field. *)
Lemma EnsureDefaults_fields (l : t World) (logger : Logger World) :
  EnsureDefaults l logger
  = mk World
      (ensure (BackgroundError l)
         (fun err => Logger_Infof logger "background error: %s" [Plain (VError err)]))
      (ensure (CompactionBegin l) (fun info w => returns w))
      (ensure (CompactionEnd l) (fun info w => returns w))
      (ensure (FlushBegin l) (fun info w => returns w))
      (ensure (FlushEnd l) (fun info w => returns w))
      (ensure (ManifestCreated l) (fun info w => returns w))
      (ensure (ManifestDeleted l) (fun info w => returns w))
      (ensure (TableCreated l) (fun info w => returns w))
      (ensure (TableDeleted l) (fun info w => returns w))
      (ensure (TableIngested l) (fun info w => returns w))
      (ensure (TableStatsLoaded l) (fun info w => returns w))
      (ensure (WALCreated l) (fun info w => returns w))
      (ensure (WALDeleted l) (fun info w => returns w))
      (ensure (WriteStallBegin l) (fun info w => returns w))
      (ensure (WriteStallEnd l) (fun w => returns w)).
Proof.
  etransitivity; [apply eta |].
  unfold EnsureDefaults; cbv zeta; slots; reflexivity.
Qed.

End Defaults.

(** The defaults at work on the listener with no slot set. *)
Example default_BackgroundError_logs :
  call (EventListener.BackgroundError
          (EventListener.EnsureDefaults (Slots.empty (list string)) recording_logger))
    (Some disk_full) []
  = EventListener.returns
      ["background error: " ++ startRedactable ++ "disk full" ++ endRedactable].
Proof. vm_compute. reflexivity. Qed.

Example default_BackgroundError_nil_logger :
  call (EventListener.BackgroundError
          (EventListener.EnsureDefaults (Slots.empty (list string)) None))
    (Some disk_full) []
  = EventListener.panics.
Proof. vm_compute. reflexivity. Qed.

Example default_FlushEnd_is_silent :
  call (EventListener.FlushEnd
          (EventListener.EnsureDefaults (Slots.empty (list string)) recording_logger))
    instant_flush ["earlier line"]
  = EventListener.returns ["earlier line"]
  /\ call (EventListener.FlushEnd (Slots.empty (list string))) instant_flush []
     = EventListener.panics.
Proof. split; vm_compute; reflexivity. Qed.

(** C4. [EnsureDefaults] is idempotent: a second application, with the same
    or another logger, returns the listener the first one produced.  The
    first application leaves every slot that was set as it was and fills
    every slot that was nil, so that no slot is nil afterwards; the second
    leaves all of them as they are, those the first one filled included:
    after both, a slot that was nil at the start holds the default the first
    application wrote, the [BackgroundError] default still logging to the
    first logger. *)
Theorem EnsureDefaults_idempotent {World : Type} (l : EventListener.t World)
  (logger logger' : EventListener.Logger World) :
  EventListener.EnsureDefaults (EventListener.EnsureDefaults l logger) logger'
  = EventListener.EnsureDefaults l logger
  /\ Slots.all_kept l (EventListener.EnsureDefaults l logger)
  /\ Slots.all_set (EventListener.EnsureDefaults l logger) = true
  /\ Slots.all_filled logger l (EventListener.EnsureDefaults l logger)
  /\ Slots.all_kept (EventListener.EnsureDefaults l logger)
       (EventListener.EnsureDefaults (EventListener.EnsureDefaults l logger) logger')
  /\ Slots.all_filled logger l
       (EventListener.EnsureDefaults (EventListener.EnsureDefaults l logger) logger').
Proof.
  assert (Hidem :
            EventListener.EnsureDefaults (EventListener.EnsureDefaults l logger) logger'
            = EventListener.EnsureDefaults l logger).
  { rewrite (EnsureDefaults_fields (EventListener.EnsureDefaults l logger) logger').
    rewrite (EnsureDefaults_fields l logger).
    cbn [EventListener.BackgroundError EventListener.CompactionBegin
           EventListener.CompactionEnd EventListener.FlushBegin EventListener.FlushEnd
           EventListener.ManifestCreated EventListener.ManifestDeleted
           EventListener.TableCreated EventListener.TableDeleted
           EventListener.TableIngested EventListener.TableStatsLoaded
           EventListener.WALCreated EventListener.WALDeleted
           EventListener.WriteStallBegin EventListener.WriteStallEnd].
    now rewrite !ensure_ensure. }
  assert (Hfilled : Slots.all_filled logger l (EventListener.EnsureDefaults l logger)).
  { rewrite (EnsureDefaults_fields l logger).
    unfold Slots.all_filled, Slots.filled_with.
    repeat split; intros Hnil; cbn; rewrite Hnil; reflexivity. }
  rewrite Hidem.
  split; [reflexivity |].
  split.
  { rewrite (EnsureDefaults_fields l logger).
    unfold Slots.all_kept. repeat split; apply ensure_kept. }
  split.
  { rewrite (EnsureDefaults_fields l logger). unfold Slots.all_set.
    cbn [EventListener.BackgroundError EventListener.CompactionBegin
           EventListener.CompactionEnd EventListener.FlushBegin EventListener.FlushEnd
           EventListener.ManifestCreated EventListener.ManifestDeleted
           EventListener.TableCreated EventListener.TableDeleted
           EventListener.TableIngested EventListener.TableStatsLoaded
           EventListener.WALCreated EventListener.WALDeleted
           EventListener.WriteStallBegin EventListener.WriteStallEnd].
    now rewrite !ensure_is_set. }
  split; [exact Hfilled |].
  split; [| exact Hfilled].
  unfold Slots.all_kept, Slots.kept. repeat split; intros h Hh; exact Hh.
Qed.

(** C5. After [EnsureDefaults] no slot is nil.  Every slot the caller left
    nil holds a function that, on any payload and in any world, returns
    without a panic and leaves the world unchanged; except [BackgroundError],
    whose default hands the format [background error: %s] and the error to
    the logger's [Infof]. *)
Theorem EnsureDefaults_unset_slots {World : Type} (l : EventListener.t World)
  (logger : EventListener.Logger World) :
  Slots.all_set (EventListener.EnsureDefaults l logger) = true
  /\ Slots.unset_are_noops l (EventListener.EnsureDefaults l logger)
  /\ (EventListener.BackgroundError l = None ->
      exists h,
        EventListener.BackgroundError (EventListener.EnsureDefaults l logger) = Some h
        /\ (forall err w,
              h err w
              = EventListener.Logger_Infof logger "background error: %s"
                  [Plain (VError err)] w)
        /\ (forall impl, logger = Some impl ->
              forall err w,
                h err w
                = EventListener.Infof impl "background error: %s" [Plain (VError err)] w)).
Proof.
  rewrite (EnsureDefaults_fields l logger).
  split; [| split].
  - unfold Slots.all_set.
    cbn [EventListener.BackgroundError EventListener.CompactionBegin
           EventListener.CompactionEnd EventListener.FlushBegin EventListener.FlushEnd
           EventListener.ManifestCreated EventListener.ManifestDeleted
           EventListener.TableCreated EventListener.TableDeleted
           EventListener.TableIngested EventListener.TableStatsLoaded
           EventListener.WALCreated EventListener.WALDeleted
           EventListener.WriteStallBegin EventListener.WriteStallEnd].
    now rewrite !ensure_is_set.
  - unfold Slots.unset_are_noops, Slots.filled_with_noop, Slots.noop.
    repeat split; intros Hnil; cbn; rewrite Hnil; eexists; split; reflexivity.
  - intros Hnil. cbn. rewrite Hnil. eexists. split; [reflexivity | split].
    + reflexivity.
    + intros impl ->. reflexivity.
Qed.

(** ** The rate of an operation that took no time *)

Lemma Seconds_zero : Go.Seconds 0 = S754_zero false.
Proof. reflexivity. Qed.

(** Dividing by the zero duration never gives a finite number: it gives an
    infinity, or NaN when the dividend is zero too. *)
Lemma rate_quotient_zero_duration (outputSize : Z) :
  Go.is_finite (rate_quotient outputSize 0) = false.
Proof.
  unfold rate_quotient. rewrite Seconds_zero.
  destruct (Go.float64_of_int outputSize); reflexivity.
Qed.

(** On a float that is not finite, [uint64(...)] is the platform's answer. *)
Lemma uint64_of_not_finite (oob : Go.float64 -> Z) (x : Go.float64) :
  Go.is_finite x = false -> Go.uint64_of_float64 oob x = Go.uint64_wrap (oob x).
Proof. destruct x; simpl; intros Hx; try discriminate Hx; reflexivity. Qed.

Lemma output_stats_zero_duration `{Externals} (tables : list TableInfo.t) :
  output_stats tables 0
  = " [" ++ file_tokens tables ++ "] (" ++ humanize_Uint64 (tablesTotalSize tables)
    ++ "), in 0.0s, output rate "
    ++ humanize_Uint64
         (Go.uint64_wrap
            (uint64_of_unrepresentable (rate_quotient (tablesTotalSize tables) 0)))
    ++ "/s".
Proof.
  unfold output_stats, output_rate.
  rewrite (uint64_of_not_finite _ _ (rate_quotient_zero_duration _)).
  reflexivity.
Qed.

(** C2, as the code has it.  A completed compaction or flush whose
    [Duration] is zero is rendered with no guard: the elapsed time prints as
    [0.0s], the quotient of the output size by zero seconds is an infinity or
    NaN, and the rate shown is the humanized value of whatever the platform's
    [uint64] conversion makes of it. *)
Theorem zero_duration_rate_is_unguarded `{Externals} :
  (forall i : CompactionInfo.t,
     CompactionInfo.Err i = None -> CompactionInfo.Done i = true ->
     CompactionInfo.Duration i = 0 ->
     let size := tablesTotalSize (LevelInfo.Tables (CompactionInfo.Output i)) in
     let q := Go.fdiv (Go.float64_of_int size) (Go.Seconds 0) in
     Go.is_finite q = false
     /\ CompactionInfo.String i
        = "[JOB " ++ fmt.d (CompactionInfo.JobID i) ++ "] compacted "
          ++ String.concat " + " (map level_group (CompactionInfo.Input i))
          ++ " -> L" ++ fmt.d (LevelInfo.Level (CompactionInfo.Output i))
          ++ " [" ++ file_tokens (LevelInfo.Tables (CompactionInfo.Output i))
          ++ "] (" ++ humanize_Uint64 size ++ "), in 0.0s, output rate "
          ++ humanize_Uint64 (Go.uint64_wrap (uint64_of_unrepresentable q)) ++ "/s")
  /\ (forall i : FlushInfo.t,
        FlushInfo.Err i = None -> FlushInfo.Done i = true ->
        FlushInfo.Duration i = 0 ->
        let size := tablesTotalSize (FlushInfo.Output i) in
        let q := Go.fdiv (Go.float64_of_int size) (Go.Seconds 0) in
        Go.is_finite q = false
        /\ FlushInfo.String i
           = "[JOB " ++ fmt.d (FlushInfo.JobID i) ++ "] flushed "
             ++ fmt.d (FlushInfo.Input i)
             ++ (if FlushInfo.Input i =? 1 then " memtable" else " memtables")
             ++ " to L0 [" ++ file_tokens (FlushInfo.Output i)
             ++ "] (" ++ humanize_Uint64 size ++ "), in 0.0s, output rate "
             ++ humanize_Uint64 (Go.uint64_wrap (uint64_of_unrepresentable q)) ++ "/s").
Proof.
  split.
  - intros i Herr Hdone Hzero size q. split.
    + apply rate_quotient_zero_duration.
    + rewrite (CompactionInfo_line i Herr), Hdone, Hzero, output_stats_zero_duration.
      reflexivity.
  - intros i Herr Hdone Hzero size q. split.
    + apply rate_quotient_zero_duration.
    + rewrite (FlushInfo_line i Herr), Hdone, Hzero, output_stats_zero_duration.
      destruct (FlushInfo.Input i =? 1); reflexivity.
Qed.

(** ** What is tagged sensitive *)

Lemma unsafe_args_app (r r' : RedactableString) :
  unsafe_args (r ++ r')%list = (unsafe_args r ++ unsafe_args r')%list.
Proof. apply flat_map_app. Qed.

Lemma unsafe_args_Printf_nil `{Externals} (w : SafePrinter) (format : string)
  (args : list arg) :
  unsafe_args (scan format Text "" args) = [] ->
  unsafe_args (Printf w format args) = unsafe_args w.
Proof.
  intros Hnone. unfold Printf. rewrite unsafe_args_app, Hnone. apply app_nil_r.
Qed.

Lemma safeFormatInputs_loop_unsafe `{Externals} (input : list LevelInfo.t) :
  forall (j : nat) (w : SafePrinter),
    unsafe_args (CompactionInfo.safeFormatInputs_loop j input w) = unsafe_args w.
Proof.
  induction input as [|l rest IH]; intros j w.
  - reflexivity.
  - cbn [CompactionInfo.safeFormatInputs_loop]. rewrite IH.
    unfold LevelInfo.safeFormat. rewrite unsafe_args_Printf_nil by reflexivity.
    destruct (0 <? j)%nat; [apply unsafe_args_Printf_nil |]; reflexivity.
Qed.

Lemma ingest_loop_unsafe `{Externals} (tables : list TableIngestInfo.table) :
  forall (j : nat) (w : SafePrinter),
    unsafe_args (TableIngestInfo.SafeFormat_loop j tables w) = unsafe_args w.
Proof.
  induction tables as [|t rest IH]; intros j w.
  - reflexivity.
  - cbn [TableIngestInfo.SafeFormat_loop]. rewrite IH.
    rewrite unsafe_args_Printf_nil by reflexivity.
    destruct (0 <? j)%nat; [apply unsafe_args_Printf_nil |]; reflexivity.
Qed.

(** No line without error has an unsafe operand. *)
Lemma no_error_no_unsafe `{Externals} (s : payload) :
  Err_of s = None -> unsafe_args (render s) = [].
Proof.
  intros Herr.
  destruct s as [i|i|i|i|i|i|i|i|i|i|i]; cbn [Err_of] in Herr;
    unfold_SafeFormat; rewrite ?Herr; try reflexivity.
  - unfold CompactionInfo.safeFormatInputs.
    destruct (CompactionInfo.Done i); cbn [negb].
    + rewrite unsafe_args_Printf_nil by reflexivity.
      now rewrite safeFormatInputs_loop_unsafe.
    + now rewrite safeFormatInputs_loop_unsafe.
  - destruct (FlushInfo.Done i); reflexivity.
  - now rewrite ingest_loop_unsafe.
  - destruct (WALCreateInfo.RecycledFileNum i =? 0); reflexivity.
Qed.

(** C3, as the code has it.  [Err] is the one field tagged sensitive: in the
    error shape its message is the only unsafe operand, unmodified, and a
    line without error has no unsafe operand.  [Path] is not rendered by any
    payload, nor is the [Reason] of a compaction or a flush.  The [Reason] of
    TableCreateInfo and of WriteStallBeginInfo is rendered unmodified and
    wrapped as safe. *)
Theorem only_Err_is_tagged_sensitive `{Externals} (s : payload) :
  (forall e, Err_of s = Some e ->
     tagged_sensitive (Error e) (render s) /\ unsafe_args (render s) = [Error e])
  /\ (Err_of s = None -> unsafe_args (render s) = [])
  /\ (forall path, render (with_Path path s) = render s)
  /\ (forall reason, render (with_job_Reason reason s) = render s)
  /\ (forall i, s = TableCreate i -> tagged_safe (TableCreateInfo.Reason i) (render s))
  /\ (forall i, s = WriteStallBegin i ->
        tagged_safe (WriteStallBeginInfo.Reason i) (render s)).
Proof.
  repeat apply conj.
  - intros e Herr.
    destruct s as [i|i|i|i|i|i|i|i|i|i|i]; cbn [Err_of] in Herr; try discriminate Herr;
      unfold tagged_sensitive; unfold_SafeFormat; rewrite Herr;
      (split; [cbn; tauto | reflexivity]).
  - apply no_error_no_unsafe.
  - intros path. destruct s as [i|i|i|i|i|i|i|i|i|i|i]; destruct i;
      cbn [with_Path]; unfold_SafeFormat; reflexivity.
  - intros reason. destruct s as [i|i|i|i|i|i|i|i|i|i|i]; destruct i;
      cbn [with_job_Reason]; unfold_SafeFormat; reflexivity.
  - intros i ->. unfold tagged_safe. cbn. tauto.
  - intros i ->. unfold tagged_safe. cbn. tauto.
Qed.

(** ** The statements on sample payloads *)

Lemma error_shape_dominates_witness :
  Err_of (Compaction failed_compaction) = Some disk_full
  /\ (exists before after,
        String_of (H := sample) (Compaction failed_compaction)
        = before ++ "error" ++ after)
  /\ says "error" (render (H := sample) (Compaction failed_compaction)) = true
  /\ says "output rate" (render (H := sample) (Compaction failed_compaction)) = false
  /\ unsafe_args (render (H := sample) (Compaction failed_compaction)) = ["disk full"]
  /\ (same_failure (Compaction failed_compaction) (Compaction failed_compaction_begun) ->
      render (H := sample) (Compaction failed_compaction_begun)
      = render (H := sample) (Compaction failed_compaction)).
Proof.
  split; [reflexivity |].
  apply (error_shape_dominates (H := sample) (Compaction failed_compaction)
           (Compaction failed_compaction_begun) disk_full).
  reflexivity.
Defined.

Example failed_compaction_line :
  CompactionInfo.String (H := sample) failed_compaction
  = "[JOB 7] compaction to L1 error: " ++ startRedactable ++ "disk full" ++ endRedactable
  /\ CompactionInfo.String (H := sample) failed_compaction_begun
     = CompactionInfo.String (H := sample) failed_compaction.
Proof. split; vm_compute; reflexivity. Qed.

Lemma compaction_inputs_joined_witness :
  CompactionInfo.Err two_level_compaction = None
  /\ CompactionInfo.String (H := sample) two_level_compaction
     = "[JOB 5] compacted L0 [000004 000005] (1500 B) + L1 [000006] (772 B) -> L1 [000007] (786 B), in 2.0s, output rate 393 B/s".
Proof.
  split; [reflexivity |].
  rewrite (compaction_inputs_joined (H := sample) two_level_compaction eq_refl).
  vm_compute. reflexivity.
Defined.

Lemma flush_memtable_plural_witness :
  FlushInfo.Err instant_flush = None
  /\ FlushInfo.Input instant_flush = 1
  /\ FlushInfo.String (H := sample) instant_flush
     = "[JOB 3] flushed 1 memtable to L0 [] (0 B), in 0.0s, output rate 9223372036854775808 B/s"
  /\ FlushInfo.Err flush_of_two = None
  /\ FlushInfo.Input flush_of_two <> 1
  /\ FlushInfo.String (H := sample) flush_of_two = "[JOB 3] flushing 2 memtables to L0".
Proof.
  split; [reflexivity | split; [reflexivity | split]].
  - rewrite (proj1 (flush_memtable_plural (H := sample) instant_flush eq_refl) eq_refl).
    vm_compute. reflexivity.
  - split; [reflexivity |].
    assert (Hne : FlushInfo.Input flush_of_two <> 1) by (cbn; lia).
    split; [exact Hne |].
    rewrite (proj2 (flush_memtable_plural (H := sample) flush_of_two eq_refl) Hne).
    vm_compute. reflexivity.
Defined.

Lemma wal_created_recycled_witness :
  WALCreateInfo.Err fresh_wal = None
  /\ WALCreateInfo.RecycledFileNum fresh_wal = 0
  /\ WALCreateInfo.String (H := sample) fresh_wal = "[JOB 2] WAL created 000008"
  /\ WALCreateInfo.Err recycled_wal = None
  /\ WALCreateInfo.RecycledFileNum recycled_wal <> 0
  /\ WALCreateInfo.String (H := sample) recycled_wal
     = "[JOB 2] WAL created 000008 (recycled 000003)".
Proof.
  split; [reflexivity | split; [reflexivity | split]].
  - rewrite (proj2 (proj2 (proj1 (wal_created_recycled (H := sample) fresh_wal eq_refl)
                              eq_refl))).
    vm_compute. reflexivity.
  - split; [reflexivity |].
    assert (Hne : WALCreateInfo.RecycledFileNum recycled_wal <> 0) by (cbn; lia).
    split; [exact Hne |].
    rewrite (proj2 (wal_created_recycled (H := sample) recycled_wal eq_refl) Hne).
    vm_compute. reflexivity.
Defined.

Lemma ingest_omits_GlobalSeqNum_witness :
  TableIngestInfo.Err ingestion = None
  /\ TableIngestInfo.String (H := sample) ingestion
     = "[JOB 9] ingested L6:000011 (2048 B), L0:000012 (512 B)"
  /\ TableIngestInfo.String (H := sample)
       (TableIngestInfo.mk 9 (TableIngestInfo.Tables ingestion) 77 None)
     = TableIngestInfo.String (H := sample) ingestion.
Proof.
  split; [reflexivity |].
  destruct (ingest_omits_GlobalSeqNum (H := sample) ingestion eq_refl) as [Hline Hseq].
  split.
  - rewrite Hline. vm_compute. reflexivity.
  - exact (Hseq 77).
Defined.

(** C2, the claim as stated, fails: the completed compaction of 900 bytes in
    zero time divides by zero seconds, the quotient is [+Inf], which has no
    [uint64] value, and the rate printed is the platform's: two platforms
    print two different lines.  The same for a flush with no output, whose
    quotient is NaN. *)
Lemma zero_duration_rate_counterexample :
  (CompactionInfo.Done instant_compaction = true
   /\ CompactionInfo.Err instant_compaction = None
   /\ CompactionInfo.Duration instant_compaction = 0)
  /\ rate_quotient 900 0 = S754_infinity false
  /\ fits_uint64 (rate_quotient 900 0) = false
  /\ CompactionInfo.String (H := sample) instant_compaction
     = "[JOB 7] compacted L0 [000100] (1000 B) -> L1 [000101] (900 B), in 0.0s, output rate 9223372036854775808 B/s"
  /\ CompactionInfo.String (H := sample_saturating) instant_compaction
     = "[JOB 7] compacted L0 [000100] (1000 B) -> L1 [000101] (900 B), in 0.0s, output rate 18446744073709551615 B/s"
  /\ rate_quotient 0 0 = S754_nan
  /\ FlushInfo.String (H := sample) instant_flush
     = "[JOB 3] flushed 1 memtable to L0 [] (0 B), in 0.0s, output rate 9223372036854775808 B/s"
  /\ FlushInfo.String (H := sample_saturating) instant_flush
     = "[JOB 3] flushed 1 memtable to L0 [] (0 B), in 0.0s, output rate 0 B/s".
Proof. repeat split; vm_compute; reflexivity. Qed.

Lemma zero_duration_rate_is_unguarded_witness :
  (CompactionInfo.Err instant_compaction = None
   /\ CompactionInfo.Done instant_compaction = true
   /\ CompactionInfo.Duration instant_compaction = 0)
  /\ Go.is_finite (Go.fdiv (Go.float64_of_int 900) (Go.Seconds 0)) = false
  /\ CompactionInfo.String (H := sample) instant_compaction
     = "[JOB 7] compacted L0 [000100] (1000 B) -> L1 [000101] (900 B), in 0.0s, output rate 9223372036854775808 B/s".
Proof.
  split; [repeat split |].
  destruct (proj1 (zero_duration_rate_is_unguarded (H := sample)) instant_compaction
              eq_refl eq_refl eq_refl) as [Hq Hline].
  split.
  - exact Hq.
  - rewrite Hline. vm_compute. reflexivity.
Defined.

(** C3, the claim as stated, fails: the [Reason] of a table creation and of
    a write stall is not among the operands tagged sensitive; it is rendered
    as a safe operand, and the [Path] is not rendered at all. *)
Lemma reason_tagged_sensitive_counterexample :
  ~ tagged_sensitive "flushing" (render (H := sample) (TableCreate created_table))
  /\ tagged_safe "flushing" (render (H := sample) (TableCreate created_table))
  /\ safe_args (render (H := sample) (TableCreate created_table))
     = ["1"; "flushing"; "000005"]
  /\ unsafe_args (render (H := sample) (TableCreate created_table)) = []
  /\ ~ tagged_sensitive "/data/000005.sst" (render (H := sample) (TableCreate created_table))
  /\ TableCreateInfo.String (H := sample) created_table
     = "[JOB 1] flushing: sstable created 000005"
  /\ ~ tagged_sensitive "memtable count limit reached"
         (render (H := sample) (WriteStallBegin stall))
  /\ WriteStallBeginInfo.String (H := sample) stall
     = "write stall beginning: memtable count limit reached".
Proof.
  unfold tagged_sensitive, tagged_safe.
  repeat split; vm_compute; intuition discriminate.
Qed.

Lemma only_Err_is_tagged_sensitive_witness :
  Err_of (Compaction failed_compaction) = Some disk_full
  /\ tagged_sensitive "disk full" (render (H := sample) (Compaction failed_compaction))
  /\ unsafe_args (render (H := sample) (Compaction failed_compaction)) = ["disk full"]
  /\ Err_of (TableCreate created_table) = None
  /\ unsafe_args (render (H := sample) (TableCreate created_table)) = []
  /\ tagged_safe "flushing" (render (H := sample) (TableCreate created_table)).
Proof.
  split; [reflexivity |].
  destruct (only_Err_is_tagged_sensitive (H := sample) (Compaction failed_compaction))
    as (Herr & _).
  destruct (Herr disk_full eq_refl) as [Htag Hargs].
  destruct (only_Err_is_tagged_sensitive (H := sample) (TableCreate created_table))
    as (_ & Hnone & _ & _ & Hreason & _).
  exact (conj Htag (conj Hargs (conj eq_refl (conj (Hnone eq_refl)
           (Hreason created_table eq_refl))))).
Defined.

(** Two applications with two loggers on the listener with no slot set:
    the background errors go to the first logger. *)
Lemma EnsureDefaults_idempotent_witness :
  Slots.all_set
    (EventListener.EnsureDefaults
       (EventListener.EnsureDefaults (Slots.empty (list string)) recording_logger) None)
  = true
  /\ call (EventListener.BackgroundError
             (EventListener.EnsureDefaults
                (EventListener.EnsureDefaults (Slots.empty (list string)) recording_logger)
                None))
       (Some disk_full) []
     = EventListener.returns
         ["background error: " ++ startRedactable ++ "disk full" ++ endRedactable].
Proof.
  destruct (EnsureDefaults_idempotent (Slots.empty (list string)) recording_logger None)
    as (Hidem & _ & Hset & _ & _ & (Hbackground & _)).
  split.
  - rewrite Hidem. exact Hset.
  - rewrite (Hbackground eq_refl). vm_compute. reflexivity.
Defined.

Lemma EnsureDefaults_unset_slots_witness :
  EventListener.CompactionBegin (Slots.empty (list string)) = None
  /\ Slots.all_set (EventListener.EnsureDefaults (Slots.empty (list string)) None) = true
  /\ exists h,
       EventListener.CompactionBegin
         (EventListener.EnsureDefaults (Slots.empty (list string)) None) = Some h
       /\ Slots.noop h.
Proof.
  split; [reflexivity |].
  destruct (EnsureDefaults_unset_slots (Slots.empty (list string)) None)
    as (Hset & (Hbegin & _) & _).
  split.
  - exact Hset.
  - exact (Hbegin eq_refl).
Defined.

(** * Further properties *)

(** ** Total sizes *)

Lemma tablesTotalSize_loop_mod (tables : list TableInfo.t) :
  forall size : Z,
    tablesTotalSize_loop tables size mod 2 ^ 64 = (size + sum_sizes tables) mod 2 ^ 64.
Proof.
  induction tables as [|t rest IH]; intros size; cbn [tablesTotalSize_loop sum_sizes fold_right].
  - now rewrite Z.add_0_r.
  - rewrite IH. unfold Go.uint64_wrap. fold (sum_sizes rest).
    rewrite Zplus_mod_idemp_l. f_equal. lia.
Qed.

Lemma tablesTotalSize_loop_range (tables : list TableInfo.t) :
  forall size : Z,
    0 <= size < 2 ^ 64 -> 0 <= tablesTotalSize_loop tables size < 2 ^ 64.
Proof.
  induction tables as [|t rest IH]; intros size Hsize; cbn [tablesTotalSize_loop].
  - exact Hsize.
  - apply IH. unfold Go.uint64_wrap. apply Z.mod_pos_bound. lia.
Qed.

Lemma tablesTotalSize_range (tables : list TableInfo.t) :
  0 <= tablesTotalSize tables < 2 ^ 64.
Proof. apply tablesTotalSize_loop_range. lia. Qed.

Lemma tablesTotalSize_mod (tables : list TableInfo.t) :
  tablesTotalSize tables = sum_sizes tables mod 2 ^ 64.
Proof.
  rewrite <- (Z.mod_small (tablesTotalSize tables) (2 ^ 64)) by apply tablesTotalSize_range.
  unfold tablesTotalSize. now rewrite tablesTotalSize_loop_mod.
Qed.

Lemma sum_sizes_app (a b : list TableInfo.t) :
  sum_sizes (a ++ b)%list = sum_sizes a + sum_sizes b.
Proof.
  induction a as [|t a IH]; cbn [app sum_sizes fold_right].
  - reflexivity.
  - fold (sum_sizes (a ++ b)%list). fold (sum_sizes a). rewrite IH. lia.
Qed.

Lemma sum_sizes_nonneg (tables : list TableInfo.t) :
  sizes_in_range tables -> 0 <= sum_sizes tables.
Proof.
  induction 1 as [|t rest Ht _ IH]; cbn [sum_sizes fold_right].
  - lia.
  - fold (sum_sizes rest). lia.
Qed.

(** X1. [tablesTotalSize] is the sum of the sizes modulo 2^64, whatever the
    sizes are, and so always a [uint64]; of no tables it is 0. *)
Theorem tablesTotalSize_is_wrapped_sum (tables : list TableInfo.t) :
  tablesTotalSize tables = sum_sizes tables mod 2 ^ 64
  /\ 0 <= tablesTotalSize tables < 2 ^ 64
  /\ tablesTotalSize [] = 0.
Proof.
  split; [apply tablesTotalSize_mod | split; [apply tablesTotalSize_range | reflexivity]].
Qed.

(** X2. When the sizes are [uint64] values whose sum stays below 2^64, the
    total is the exact sum: nothing wraps. *)
Theorem tablesTotalSize_exact (tables : list TableInfo.t) :
  sizes_in_range tables -> sum_sizes tables < 2 ^ 64 ->
  tablesTotalSize tables = sum_sizes tables.
Proof.
  intros Hrange Hsum. rewrite tablesTotalSize_mod.
  apply Z.mod_small. split; [now apply sum_sizes_nonneg | exact Hsum].
Qed.

(** X3. The total of two runs of tables is the wrapped sum of their totals. *)
Theorem tablesTotalSize_app (a b : list TableInfo.t) :
  tablesTotalSize (a ++ b)%list
  = Go.uint64_wrap (tablesTotalSize a + tablesTotalSize b).
Proof.
  rewrite !tablesTotalSize_mod, sum_sizes_app. unfold Go.uint64_wrap.
  now rewrite <- Zplus_mod.
Qed.

(** The sum can wrap: two tables of 2^63 bytes total 0. *)
Example tablesTotalSize_wraps :
  tablesTotalSize [TableInfo.mk 1 (2 ^ 63); TableInfo.mk 2 (2 ^ 63)] = 0.
Proof. reflexivity. Qed.

Lemma tablesTotalSize_exact_witness :
  sizes_in_range [TableInfo.mk 4 700; TableInfo.mk 5 800]
  /\ sum_sizes [TableInfo.mk 4 700; TableInfo.mk 5 800] < 2 ^ 64
  /\ tablesTotalSize [TableInfo.mk 4 700; TableInfo.mk 5 800] = 1500.
Proof.
  assert (Hrange : sizes_in_range [TableInfo.mk 4 700; TableInfo.mk 5 800])
    by (repeat constructor; cbn; lia).
  assert (Hsum : sum_sizes [TableInfo.mk 4 700; TableInfo.mk 5 800] < 2 ^ 64)
    by (cbn; lia).
  split; [exact Hrange | split; [exact Hsum |]].
  rewrite (tablesTotalSize_exact _ Hrange Hsum). reflexivity.
Defined.

(** ** File tokens *)

Lemma concat_app (sep : string) (l l' : list string) :
  l <> [] -> l' <> [] ->
  String.concat sep (l ++ l')%list = String.concat sep l ++ sep ++ String.concat sep l'.
Proof.
  intros Hl Hl'. induction l as [|x l IH]; [contradiction |].
  destruct l as [|y l].
  - destruct l' as [|x' l']; [contradiction |]. reflexivity.
  - specialize (IH ltac:(discriminate)). cbn [app] in IH |- *.
    rewrite (concat_cons sep x (y :: l ++ l')), IH.
    rewrite (concat_cons sep x (y :: l)). now rewrite !append_assoc.
Qed.

(** X4. The tokens of two non-empty runs of tables are the tokens of each,
    one space between them; of no tables they are the empty string. *)
Theorem formatFileNums_app `{Externals} (a b : list TableInfo.t) :
  a <> [] -> b <> [] ->
  formatFileNums (a ++ b)%list = formatFileNums a ++ " " ++ formatFileNums b
  /\ formatFileNums [] = "".
Proof.
  intros Ha Hb. split; [| reflexivity].
  rewrite !formatFileNums_spec. unfold file_tokens. rewrite map_app.
  apply concat_app; destruct a, b; try contradiction; discriminate.
Qed.

Lemma formatFileNums_app_witness :
  [TableInfo.mk 4 700] <> [] /\ [TableInfo.mk 5 800; TableInfo.mk 6 772] <> []
  /\ formatFileNums (H := sample)
       ([TableInfo.mk 4 700] ++ [TableInfo.mk 5 800; TableInfo.mk 6 772])%list
     = "000004 000005 000006".
Proof.
  assert (Ha : [TableInfo.mk 4 700] <> []) by discriminate.
  assert (Hb : [TableInfo.mk 5 800; TableInfo.mk 6 772] <> []) by discriminate.
  split; [exact Ha | split; [exact Hb |]].
  rewrite (proj1 (formatFileNums_app (H := sample) _ _ Ha Hb)).
  vm_compute. reflexivity.
Defined.

(** ** Lines made of level groups *)

Lemma LevelInfo_String_group `{Externals} (l : LevelInfo.t) :
  LevelInfo.String l = level_group l.
Proof.
  unfold LevelInfo.String, Sprintfn. rewrite LevelInfo_safeFormat_text. reflexivity.
Qed.

(** X5. A compaction without error is written with [LevelInfo.String]: the
    inputs are the [String] of each input level joined by [" + "], and a
    completed compaction shows its output as [" -> "] and the [String] of the
    output level, before the elapsed time and the rate. *)
Theorem compaction_line_of_levels `{Externals} (i : CompactionInfo.t) :
  CompactionInfo.Err i = None ->
  CompactionInfo.String i
  = "[JOB " ++ fmt.d (CompactionInfo.JobID i)
    ++ (if CompactionInfo.Done i then "] compacted " else "] compacting ")
    ++ String.concat " + " (map LevelInfo.String (CompactionInfo.Input i))
    ++ (if CompactionInfo.Done i
        then " -> " ++ LevelInfo.String (CompactionInfo.Output i)
             ++ ", in " ++ fmt.f 1 (Go.Seconds (CompactionInfo.Duration i))
             ++ "s, output rate "
             ++ output_rate (tablesTotalSize (LevelInfo.Tables (CompactionInfo.Output i)))
                  (CompactionInfo.Duration i)
             ++ "/s"
        else "").
Proof.
  intros Herr. rewrite (CompactionInfo_line i Herr).
  rewrite (map_ext _ _ LevelInfo_String_group), LevelInfo_String_group.
  unfold level_group, output_stats.
  destruct (CompactionInfo.Done i); rewrite ?append_assoc; reflexivity.
Qed.

Lemma compaction_line_of_levels_witness :
  CompactionInfo.Err two_level_compaction = None
  /\ map (LevelInfo.String (H := sample)) (CompactionInfo.Input two_level_compaction)
     = ["L0 [000004 000005] (1500 B)"; "L1 [000006] (772 B)"]
  /\ LevelInfo.String (H := sample) (CompactionInfo.Output two_level_compaction)
     = "L1 [000007] (786 B)"
  /\ CompactionInfo.String (H := sample) two_level_compaction
     = "[JOB 5] compacted L0 [000004 000005] (1500 B) + L1 [000006] (772 B) -> L1 [000007] (786 B), in 2.0s, output rate 393 B/s".
Proof.
  split; [reflexivity |].
  split; [vm_compute; reflexivity |]. split; [vm_compute; reflexivity |].
  rewrite (compaction_line_of_levels (H := sample) two_level_compaction eq_refl).
  vm_compute. reflexivity.
Defined.

(** ** What the shapes read *)

(** X6. While a compaction or a flush is in progress and has no error, its
    line is the same whatever [Output] and [Duration] hold. *)
Theorem in_progress_ignores_output `{Externals} :
  (forall (i : CompactionInfo.t) (output : LevelInfo.t) (d : Go.Duration),
     CompactionInfo.Err i = None -> CompactionInfo.Done i = false ->
     CompactionInfo.String
       (CompactionInfo.mk (CompactionInfo.JobID i) (CompactionInfo.Reason i)
          (CompactionInfo.Input i) output d false None)
     = CompactionInfo.String i)
  /\ (forall (i : FlushInfo.t) (output : list TableInfo.t) (d : Go.Duration),
        FlushInfo.Err i = None -> FlushInfo.Done i = false ->
        FlushInfo.String
          (FlushInfo.mk (FlushInfo.JobID i) (FlushInfo.Reason i) (FlushInfo.Input i)
             output d false None)
        = FlushInfo.String i).
Proof.
  split.
  - intros i output d Herr Hdone. rewrite (CompactionInfo_line i Herr), Hdone.
    now rewrite CompactionInfo_line.
  - intros i output d Herr Hdone. rewrite (FlushInfo_line i Herr), Hdone.
    now rewrite FlushInfo_line.
Qed.

Lemma in_progress_ignores_output_witness :
  FlushInfo.Err flush_of_two = None /\ FlushInfo.Done flush_of_two = false
  /\ FlushInfo.String (H := sample)
       (FlushInfo.mk 3 "" 2 [TableInfo.mk 9 4096] (5 * Go.Second) false None)
     = FlushInfo.String (H := sample) flush_of_two.
Proof.
  split; [reflexivity | split; [reflexivity |]].
  exact (proj2 (in_progress_ignores_output (H := sample)) flush_of_two
           [TableInfo.mk 9 4096] (5 * Go.Second) eq_refl eq_refl).
Defined.

Lemma TableIngestInfo_line `{Externals} (i : TableIngestInfo.t) :
  TableIngestInfo.Err i = None ->
  TableIngestInfo.String i
  = "[JOB " ++ fmt.d (TableIngestInfo.JobID i) ++ "] ingested"
    ++ String.concat "," (map ingested_table (TableIngestInfo.Tables i)).
Proof.
  intros Herr.
  unfold TableIngestInfo.String, redactSprint, Sprintfn, TableIngestInfo.SafeFormat.
  rewrite Herr, ingest_loop_text.
  rewrite (job_line_text _ _ "[JOB " "] ingested") by reflexivity.
  destruct (TableIngestInfo.Tables i); cbn [Nat.ltb Nat.leb];
    rewrite ?append_assoc, ?append_nil_r; reflexivity.
Qed.

(** X7. Every payload that has a job, that is every one but
    WriteStallBeginInfo, renders in each of its shapes a line that begins
    with [[JOB n]] and a space, [n] being its [JobID]. *)
Theorem line_begins_with_job `{Externals} (s : payload) (job : Z) :
  JobID_of s = Some job ->
  exists rest, String_of s = "[JOB " ++ fmt.d job ++ "] " ++ rest.
Proof.
  intros Hjob.
  destruct s as [i|i|i|i|i|i|i|i|i|i|i]; cbn [JobID_of] in Hjob;
    try discriminate Hjob; injection Hjob as <-.
  - change (String_of (Compaction i)) with (CompactionInfo.String i).
    destruct (CompactionInfo.Err i) as [e|] eqn:Herr.
    + unfold CompactionInfo.String, redactSprint, Sprintfn, CompactionInfo.SafeFormat.
      rewrite Herr. eexists. reflexivity.
    + rewrite (CompactionInfo_line i Herr).
      destruct (CompactionInfo.Done i); eexists; reflexivity.
  - change (String_of (Flush i)) with (FlushInfo.String i).
    destruct (FlushInfo.Err i) as [e|] eqn:Herr.
    + unfold FlushInfo.String, redactSprint, Sprintfn, FlushInfo.SafeFormat.
      rewrite Herr. eexists. reflexivity.
    + rewrite (FlushInfo_line i Herr).
      destruct (FlushInfo.Done i); eexists; reflexivity.
  - unfold_SafeFormat. destruct (ManifestCreateInfo.Err i); eexists; reflexivity.
  - unfold_SafeFormat. destruct (ManifestDeleteInfo.Err i); eexists; reflexivity.
  - exists (TableCreateInfo.Reason i ++ ": sstable created "
            ++ FileNum_String (TableCreateInfo.FileNum i)).
    reflexivity.
  - unfold_SafeFormat. destruct (TableDeleteInfo.Err i); eexists; reflexivity.
  - change (String_of (TableIngest i)) with (TableIngestInfo.String i).
    destruct (TableIngestInfo.Err i) as [e|] eqn:Herr.
    + unfold TableIngestInfo.String, redactSprint, Sprintfn, TableIngestInfo.SafeFormat.
      rewrite Herr. eexists. reflexivity.
    + rewrite (TableIngestInfo_line i Herr). eexists. reflexivity.
  - unfold_SafeFormat. eexists; reflexivity.
  - unfold_SafeFormat.
    destruct (WALCreateInfo.Err i) as [e|];
      [| destruct (WALCreateInfo.RecycledFileNum i =? 0)].
    + exists ("WAL create error: " ++ startRedactable ++ Error e ++ endRedactable).
      reflexivity.
    + exists ("WAL created " ++ FileNum_String (WALCreateInfo.FileNum i)). reflexivity.
    + exists ("WAL created " ++ FileNum_String (WALCreateInfo.FileNum i)
              ++ " (recycled " ++ FileNum_String (WALCreateInfo.RecycledFileNum i) ++ ")").
      reflexivity.
  - unfold_SafeFormat. destruct (WALDeleteInfo.Err i); eexists; reflexivity.
Qed.

Lemma line_begins_with_job_witness :
  JobID_of (TableIngest ingestion) = Some 9
  /\ exists rest, String_of (H := sample) (TableIngest ingestion) = "[JOB 9] " ++ rest.
Proof.
  split; [reflexivity |].
  exact (line_begins_with_job (H := sample) (TableIngest ingestion) 9 eq_refl).
Defined.

Lemma says_app (needle : string) (r r' : RedactableString) :
  says needle (r ++ r')%list = says needle r || says needle r'.
Proof. unfold says, literals. now rewrite flat_map_app, existsb_app. Qed.

Lemma says_Printf `{Externals} (needle : string) (w : SafePrinter) (format : string)
  (args : list arg) :
  says needle (Printf w format args)
  = says needle w || says needle (scan format Text "" args).
Proof. apply says_app. Qed.

(** The input groups add to the format text only their separator and the
    punctuation of a group. *)
Lemma says_inputs_loop `{Externals} (needle : string) :
  contains needle " + " = false ->
  existsb (contains needle) ["L"; " ["; "] ("; ")"] = false ->
  forall (input : list LevelInfo.t) (j : nat) (w : SafePrinter),
    says needle (CompactionInfo.safeFormatInputs_loop j input w) = says needle w.
Proof.
  intros Hsep Hgroup. induction input as [|l rest IH]; intros j w.
  - reflexivity.
  - cbn [CompactionInfo.safeFormatInputs_loop]. rewrite IH.
    unfold LevelInfo.safeFormat. rewrite says_Printf.
    change (says needle (scan "L%d [%s] (%s)" Text "" _))
      with (existsb (contains needle) ["L"; " ["; "] ("; ")"]).
    rewrite Hgroup, orb_false_r.
    destruct (0 <? j)%nat; [| reflexivity].
    rewrite says_Printf.
    change (says needle (scan " + " Text "" [])) with (contains needle " + " || false).
    now rewrite Hsep, !orb_false_r.
Qed.

Lemma two_phase_words `{Externals} :
  (forall i : CompactionInfo.t,
     let r := render (Compaction i) in
     let sh := shape_of (CompactionInfo.Err i) (CompactionInfo.Done i) in
     says "error" r = is_shape sh Failed
     /\ says "ing " r = is_shape sh InProgress
     /\ says "output rate" r = is_shape sh Completed)
  /\ (forall i : FlushInfo.t,
        let r := render (Flush i) in
        let sh := shape_of (FlushInfo.Err i) (FlushInfo.Done i) in
        says "error" r = is_shape sh Failed
        /\ says "ing " r = is_shape sh InProgress
        /\ says "output rate" r = is_shape sh Completed).
Proof.
  split.
  - intros i r sh. subst r sh. unfold_SafeFormat.
    destruct (CompactionInfo.Err i) as [e|]; [repeat split |].
    unfold CompactionInfo.safeFormatInputs.
    destruct (CompactionInfo.Done i); cbn [negb shape_of is_shape];
      rewrite ?says_Printf, !says_inputs_loop by reflexivity;
      repeat split.
  - intros i r sh. subst r sh. unfold_SafeFormat.
    destruct (FlushInfo.Err i) as [e|]; [repeat split |].
    destruct (FlushInfo.Done i); repeat split.
Qed.

Lemma two_phase_error_word `{Externals} :
  (forall i : CompactionInfo.t,
     says "error" (render (Compaction i)) = Slots.is_set (CompactionInfo.Err i))
  /\ (forall i : FlushInfo.t,
        says "error" (render (Flush i)) = Slots.is_set (FlushInfo.Err i)).
Proof.
  split; intros i.
  - rewrite (proj1 (proj1 two_phase_words i)).
    destruct (CompactionInfo.Err i); [| destruct (CompactionInfo.Done i)]; reflexivity.
  - rewrite (proj1 (proj2 two_phase_words i)).
    destruct (FlushInfo.Err i); [| destruct (FlushInfo.Done i)]; reflexivity.
Qed.

(** X8. The format text of a compaction or flush line tells its shape: it
    says [error] exactly when [Err] is set, [output rate] exactly when the
    operation is done without error, and [ing ] (of [compacting ],
    [flushing ]) exactly when it is in progress without error. *)
Theorem two_phase_shapes `{Externals} :
  (forall i : CompactionInfo.t,
     let r := render (Compaction i) in
     let sh := shape_of (CompactionInfo.Err i) (CompactionInfo.Done i) in
     says "error" r = is_shape sh Failed
     /\ says "ing " r = is_shape sh InProgress
     /\ says "output rate" r = is_shape sh Completed)
  /\ (forall i : FlushInfo.t,
        let r := render (Flush i) in
        let sh := shape_of (FlushInfo.Err i) (FlushInfo.Done i) in
        says "error" r = is_shape sh Failed
        /\ says "ing " r = is_shape sh InProgress
        /\ says "output rate" r = is_shape sh Completed).
Proof. exact two_phase_words. Qed.

Example completed_compaction_shape :
  says "output rate" (render (H := sample) (Compaction two_level_compaction)) = true
  /\ says "error" (render (H := sample) (Compaction two_level_compaction)) = false
  /\ says "error" (render (H := sample) (Compaction failed_compaction)) = true.
Proof. repeat split. Qed.

(** ** More on the listener's defaults *)

Lemma EnsureDefaults_all_set {World : Type} (l : EventListener.t World)
  (logger : EventListener.Logger World) :
  Slots.all_set l = true -> EventListener.EnsureDefaults l logger = l.
Proof.
  intros Hset. rewrite EnsureDefaults_fields.
  destruct l as [s1 s2 s3 s4 s5 s6 s7 s8 s9 s10 s11 s12 s13 s14 s15].
  unfold Slots.all_set in Hset.
  cbn [EventListener.BackgroundError EventListener.CompactionBegin
         EventListener.CompactionEnd EventListener.FlushBegin EventListener.FlushEnd
         EventListener.ManifestCreated EventListener.ManifestDeleted
         EventListener.TableCreated EventListener.TableDeleted
         EventListener.TableIngested EventListener.TableStatsLoaded
         EventListener.WALCreated EventListener.WALDeleted
         EventListener.WriteStallBegin EventListener.WriteStallEnd] in Hset |- *.
  repeat (apply andb_true_iff in Hset; destruct Hset as [Hset ?]).
  repeat match goal with
         | Hs : Slots.is_set ?slot = true |- _ =>
             destruct slot; [clear Hs | discriminate Hs]
         end.
  reflexivity.
Qed.

(** X9. A listener with no nil slot is left exactly as it is by
    [EnsureDefaults], whatever the logger. *)
Theorem EnsureDefaults_keeps_full_listener {World : Type} (l : EventListener.t World)
  (logger : EventListener.Logger World) :
  Slots.all_set l = true -> EventListener.EnsureDefaults l logger = l.
Proof. apply EnsureDefaults_all_set. Qed.

(** X10. The logger matters to [EnsureDefaults] only through the
    [BackgroundError] default: when that slot is set, any two loggers give
    the same listener. *)
Theorem EnsureDefaults_logger_unused {World : Type} (l : EventListener.t World)
  (logger logger' : EventListener.Logger World) :
  Slots.is_set (EventListener.BackgroundError l) = true ->
  EventListener.EnsureDefaults l logger = EventListener.EnsureDefaults l logger'.
Proof.
  intros Hset. rewrite !EnsureDefaults_fields.
  destruct (EventListener.BackgroundError l); [reflexivity | discriminate Hset].
Qed.

(** X11. [EnsureDefaults] accepts a nil logger, but the [BackgroundError]
    default it then installs panics on every call: the slot holds a handler,
    and that handler calls [Infof] on the nil interface. *)
Theorem EnsureDefaults_nil_logger_panics {World : Type} (l : EventListener.t World) :
  EventListener.BackgroundError l = None ->
  exists h,
    EventListener.BackgroundError (EventListener.EnsureDefaults l None) = Some h
    /\ forall (err : option error) (w : World), h err w = EventListener.panics.
Proof.
  intros Hnil. rewrite EnsureDefaults_fields.
  cbn [EventListener.BackgroundError]. rewrite Hnil.
  eexists. split; reflexivity.
Qed.

(** ** The logging listener *)

(** X12. The listener [MakeLoggingEventListener] builds has no nil slot, so
    [EnsureDefaults] returns it unchanged, with any logger. *)
Theorem MakeLoggingEventListener_is_full {World : Type}
  (DefaultLogger logger : Logging.Logger World) (logger' : EventListener.Logger World) :
  Slots.all_set (Logging.MakeLoggingEventListener DefaultLogger logger) = true
  /\ EventListener.EnsureDefaults
       (Logging.MakeLoggingEventListener DefaultLogger logger) logger'
     = Logging.MakeLoggingEventListener DefaultLogger logger.
Proof.
  assert (Hset : Slots.all_set (Logging.MakeLoggingEventListener DefaultLogger logger)
                 = true) by reflexivity.
  split; [exact Hset | now apply EnsureDefaults_all_set].
Qed.

(** X13. [DefaultLogger] is used exactly when the logger passed is nil: a
    nil logger gives the listener of [DefaultLogger], and with a logger that
    is not nil [DefaultLogger] plays no part. *)
Theorem MakeLoggingEventListener_default {World : Type}
  (DefaultLogger DefaultLogger' : Logging.Logger World) (sink : Logging.Sink World) :
  Logging.MakeLoggingEventListener DefaultLogger None
  = Logging.MakeLoggingEventListener DefaultLogger DefaultLogger
  /\ Logging.MakeLoggingEventListener DefaultLogger (Some sink)
     = Logging.MakeLoggingEventListener DefaultLogger' (Some sink).
Proof.
  split; [| reflexivity].
  unfold Logging.MakeLoggingEventListener. destruct DefaultLogger; reflexivity.
Qed.

(** X14. On background errors the logging listener and the default of
    [EnsureDefaults] do the same with the same sink: both call its [Infof]
    with [background error: %s] and the error. *)
Theorem BackgroundError_same_as_default {World : Type} (l : EventListener.t World)
  (DefaultLogger : Logging.Logger World) (sink : Logging.Sink World)
  (err : option error) (w : World) :
  EventListener.BackgroundError l = None ->
  call (EventListener.BackgroundError
          (EventListener.EnsureDefaults l (Some (Logging.as_LoggerImpl sink)))) err w
  = call (EventListener.BackgroundError
            (Logging.MakeLoggingEventListener DefaultLogger (Some sink))) err w
  /\ call (EventListener.BackgroundError
            (Logging.MakeLoggingEventListener DefaultLogger (Some sink))) err w
     = Logging.Infof sink "background error: %s" [Logging.Value (Plain (VError err))] w.
Proof.
  intros Hnil. rewrite EnsureDefaults_fields.
  cbn [EventListener.BackgroundError]. rewrite Hnil. split; reflexivity.
Qed.

(** The logging listener at work on a sink that keeps its lines. *)
Example logging_listener_lines :
  let l := Logging.MakeLoggingEventListener None (Some rendering_sink) in
  call (EventListener.CompactionEnd l) two_level_compaction []
  = EventListener.returns
      ["[JOB 5] compacted L0 [000004 000005] (1500 B) + L1 [000006] (772 B) -> L1 [000007] (786 B), in 2.0s, output rate 393 B/s"]
  /\ call (EventListener.WriteStallBegin l) stall ["earlier line"]
     = EventListener.returns
         ["earlier line"; "write stall beginning: memtable count limit reached"]
  /\ (match EventListener.WriteStallEnd l with
      | Some h => h []
      | None => EventListener.panics
      end) = EventListener.returns ["write stall ending"]
  /\ call (EventListener.BackgroundError l) (Some disk_full) []
     = EventListener.returns
         ["background error: " ++ startRedactable ++ "disk full" ++ endRedactable]
  /\ call (EventListener.FlushEnd (Logging.MakeLoggingEventListener None None))
       instant_flush ([] : list string)
     = EventListener.panics.
Proof. repeat split; vm_compute; reflexivity. Qed.

Lemma EnsureDefaults_keeps_full_listener_witness :
  Slots.all_set (Logging.MakeLoggingEventListener None (Some rendering_sink)) = true
  /\ EventListener.EnsureDefaults
       (Logging.MakeLoggingEventListener None (Some rendering_sink)) recording_logger
     = Logging.MakeLoggingEventListener None (Some rendering_sink).
Proof.
  split; [reflexivity |].
  exact (EnsureDefaults_keeps_full_listener
           (Logging.MakeLoggingEventListener None (Some rendering_sink))
           recording_logger eq_refl).
Defined.

Lemma EnsureDefaults_logger_unused_witness :
  Slots.is_set
    (EventListener.BackgroundError
       (EventListener.set_BackgroundError (fun _ w => EventListener.returns w)
          (Slots.empty (list string)))) = true
  /\ EventListener.EnsureDefaults
       (EventListener.set_BackgroundError (fun _ w => EventListener.returns w)
          (Slots.empty (list string))) None
     = EventListener.EnsureDefaults
         (EventListener.set_BackgroundError (fun _ w => EventListener.returns w)
            (Slots.empty (list string))) recording_logger.
Proof.
  split; [reflexivity |].
  exact (EnsureDefaults_logger_unused
           (EventListener.set_BackgroundError (fun _ w => EventListener.returns w)
              (Slots.empty (list string))) None recording_logger eq_refl).
Defined.

Lemma EnsureDefaults_nil_logger_panics_witness :
  EventListener.BackgroundError (Slots.empty (list string)) = None
  /\ exists h,
       EventListener.BackgroundError
         (EventListener.EnsureDefaults (Slots.empty (list string)) None) = Some h
       /\ forall (err : option error) (w : list string), h err w = EventListener.panics.
Proof.
  split; [reflexivity |].
  exact (EnsureDefaults_nil_logger_panics (Slots.empty (list string)) eq_refl).
Defined.

Lemma BackgroundError_same_as_default_witness :
  EventListener.BackgroundError (Slots.empty (list string)) = None
  /\ call (EventListener.BackgroundError
             (EventListener.EnsureDefaults (Slots.empty (list string))
                (Some (Logging.as_LoggerImpl rendering_sink)))) (Some disk_full) []
     = EventListener.returns
         ["background error: " ++ startRedactable ++ "disk full" ++ endRedactable].
Proof.
  split; [reflexivity |].
  destruct (BackgroundError_same_as_default (Slots.empty (list string)) None
              rendering_sink (Some disk_full) [] eq_refl) as [Hsame Hsink].
  rewrite Hsame, Hsink. vm_compute. reflexivity.
Defined.

(** ** The error indicator *)

Lemma says_ingest_loop `{Externals} (needle : string) :
  contains needle "," = false ->
  existsb (contains needle) [" L"; ":"; " ("; ")"] = false ->
  forall (tables : list TableIngestInfo.table) (j : nat) (w : SafePrinter),
    says needle (TableIngestInfo.SafeFormat_loop j tables w) = says needle w.
Proof.
  intros Hsep Htable. induction tables as [|t rest IH]; intros j w.
  - reflexivity.
  - cbn [TableIngestInfo.SafeFormat_loop]. rewrite IH, says_Printf.
    change (says needle (scan " L%d:%s (%s)" Text "" _))
      with (existsb (contains needle) [" L"; ":"; " ("; ")"]).
    rewrite Htable, orb_false_r.
    destruct (0 <? j)%nat; [| reflexivity].
    rewrite says_Printf.
    change (says needle (scan "," Text "" [])) with (contains needle "," || false).
    now rewrite Hsep, !orb_false_r.
Qed.

(** X15. Over all eleven payload types, the format text of the line says
    [error] exactly when the payload has an [Err] field and it is set: no
    line without error carries the indicator, and TableCreateInfo,
    TableStatsInfo and WriteStallBeginInfo never do. *)
Theorem error_indicator_iff_Err `{Externals} (s : payload) :
  says "error" (render s) = Slots.is_set (Err_of s).
Proof.
  destruct s as [i|i|i|i|i|i|i|i|i|i|i]; cbn [Err_of].
  - exact (proj1 two_phase_error_word i).
  - exact (proj2 two_phase_error_word i).
  - unfold_SafeFormat. destruct (ManifestCreateInfo.Err i); reflexivity.
  - unfold_SafeFormat. destruct (ManifestDeleteInfo.Err i); reflexivity.
  - reflexivity.
  - unfold_SafeFormat. destruct (TableDeleteInfo.Err i); reflexivity.
  - unfold_SafeFormat. destruct (TableIngestInfo.Err i); [reflexivity |].
    rewrite says_ingest_loop by reflexivity. reflexivity.
  - reflexivity.
  - unfold_SafeFormat.
    destruct (WALCreateInfo.Err i); [| destruct (WALCreateInfo.RecycledFileNum i =? 0)];
      reflexivity.
  - unfold_SafeFormat. destruct (WALDeleteInfo.Err i); reflexivity.
  - reflexivity.
Qed.
